(** * Trap entry, trap return and interrupt arbitration of the RISC-V hart model

    A shallow embedding of [riscvExceptions.c]: the delegation resolver
    [getModeX], the trap entry engine [riscvTakeException], the returns
    [riscvMRET], [riscvSRET], [riscvURET] and [riscvDRET], the Debug mode
    controller [enterDM] / [leaveDM], and the interrupt arbitrator
    [getPendingAndEnabledInterrupts] / [doInterrupt].

    Machine integers are [Z] with the wrap-around of their C type written
    out ([to_Uns32], [to_Uns64]); the hart is one record passed through every
    operation; calls into the simulator and into derived models are logged,
    in order, in the [events] of the hart. *)

From Stdlib Require Import ZArith List Bool Lia String DecimalString.
Import ListNotations.
Open Scope Z_scope.

(* ------------------------------------------------------------------------- *)
(** ** Machine integers *)

Definition to_Uns32 (z : Z) : Z := z mod 2 ^ 32.
Definition to_Uns64 (z : Z) : Z := z mod 2 ^ 64.

(** A C [Bool] is true exactly when the converted value is not zero. *)
Definition to_Bool (z : Z) : bool := negb (z =? 0).
Definition of_Bool (b : bool) : Z := if b then 1 else 0.

(* ------------------------------------------------------------------------- *)
(** ** Privilege modes *)

(** Modelled from the spec: the enumeration [riscvMode] is declared in a
    header that is not part of this file; the spec names User, Supervisor and
    Machine with Hypervisor reserved, ordered User < Supervisor < Machine.
    The codes are the two-bit privilege encodings held by [mstatus.MPP]. *)
Inductive riscvMode : Type :=
  | RISCV_MODE_USER
  | RISCV_MODE_SUPERVISOR
  | RISCV_MODE_HYPERVISOR
  | RISCV_MODE_MACHINE.

Definition mode_code (m : riscvMode) : Z :=
  match m with
  | RISCV_MODE_USER => 0
  | RISCV_MODE_SUPERVISOR => 1
  | RISCV_MODE_HYPERVISOR => 2
  | RISCV_MODE_MACHINE => 3
  end.

(** Reading a two-bit (or one-bit) mode field back as a [riscvMode]. *)
Definition mode_of_code (z : Z) : riscvMode :=
  if z =? 0 then RISCV_MODE_USER
  else if z =? 1 then RISCV_MODE_SUPERVISOR
  else if z =? 2 then RISCV_MODE_HYPERVISOR
  else RISCV_MODE_MACHINE.

Definition mode_le (a b : riscvMode) : Prop := mode_code a <= mode_code b.
Definition mode_lt (a b : riscvMode) : Prop := mode_code a < mode_code b.


(* ------------------------------------------------------------------------- *)
(** ** The delegation resolver *)

Section Resolver.

(** [1<<ecode] is a shift of the 32-bit [int] constant 1.  For a count of
    32 or more C leaves the result undefined: [shl_undef] stands for
    whatever value the host produces there, and nothing below depends on
    it. *)
Variable shl_undef : Z -> Z.

Definition shl_1 (ecode : Z) : Z :=
  if (0 <=? ecode) && (ecode <? 32)
  then Z.shiftl 1 ecode
  else to_Uns32 (shl_undef ecode).

(** [getModeX]: the mode to which the given exception or interrupt is
    taken.  [modeY] is [getCurrentMode(riscv)]; [mMask] and [sMask] are the
    [Uns32] delegation masks. *)
Definition getModeX (modeY : riscvMode) (mMask sMask ecode : Z)
  : riscvMode :=
  let modeX :=
    if Z.land mMask (shl_1 ecode) =? 0 then RISCV_MODE_MACHINE
    else if Z.land sMask (shl_1 ecode) =? 0 then RISCV_MODE_SUPERVISOR
    else RISCV_MODE_USER in
  if mode_code modeX >? mode_code modeY then modeX else modeY.

End Resolver.



(* ------------------------------------------------------------------------- *)
(** ** Exception and interrupt codes *)

(** Modelled from the spec: the enumeration [riscvException] is declared in
    a header that is not part of this file.  Synchronous exceptions take the
    low range with the codes of the RISC-V Privileged Architecture; an
    interrupt is flagged by the bit [riscv_E_Interrupt] and classified as
    software, timer, external or local, offset by the mode it belongs to. *)
Definition riscv_E_InstructionAddressMisaligned : Z := 0.
Definition riscv_E_InstructionAccessFault : Z := 1.
Definition riscv_E_IllegalInstruction : Z := 2.
Definition riscv_E_Breakpoint : Z := 3.
Definition riscv_E_LoadAddressMisaligned : Z := 4.
Definition riscv_E_LoadAccessFault : Z := 5.
Definition riscv_E_StoreAMOAddressMisaligned : Z := 6.
Definition riscv_E_StoreAMOAccessFault : Z := 7.
Definition riscv_E_EnvironmentCallFromUMode : Z := 8.
Definition riscv_E_EnvironmentCallFromSMode : Z := 9.
Definition riscv_E_EnvironmentCallFromHMode : Z := 10.
Definition riscv_E_EnvironmentCallFromMMode : Z := 11.
Definition riscv_E_InstructionPageFault : Z := 12.
Definition riscv_E_LoadPageFault : Z := 13.
Definition riscv_E_StoreAMOPageFault : Z := 15.

Definition riscv_E_Interrupt : Z := 0x40.
Definition riscv_E_SW : Z := 0x0.
Definition riscv_E_Timer : Z := 0x4.
Definition riscv_E_External : Z := 0x8.
Definition riscv_E_Local : Z := 0x10.

Definition riscv_E_SWInterrupt : Z := Z.lor riscv_E_Interrupt riscv_E_SW.
Definition riscv_E_TimerInterrupt : Z :=
  Z.lor riscv_E_Interrupt riscv_E_Timer.
Definition riscv_E_ExternalInterrupt : Z :=
  Z.lor riscv_E_Interrupt riscv_E_External.
Definition riscv_E_LocalInterrupt : Z :=
  Z.lor riscv_E_Interrupt riscv_E_Local.

Definition riscv_E_USWInterrupt : Z :=
  Z.lor riscv_E_SWInterrupt (mode_code RISCV_MODE_USER).
Definition riscv_E_SSWInterrupt : Z :=
  Z.lor riscv_E_SWInterrupt (mode_code RISCV_MODE_SUPERVISOR).
Definition riscv_E_HSWInterrupt : Z :=
  Z.lor riscv_E_SWInterrupt (mode_code RISCV_MODE_HYPERVISOR).
Definition riscv_E_MSWInterrupt : Z :=
  Z.lor riscv_E_SWInterrupt (mode_code RISCV_MODE_MACHINE).
Definition riscv_E_UTimerInterrupt : Z :=
  Z.lor riscv_E_TimerInterrupt (mode_code RISCV_MODE_USER).
Definition riscv_E_STimerInterrupt : Z :=
  Z.lor riscv_E_TimerInterrupt (mode_code RISCV_MODE_SUPERVISOR).
Definition riscv_E_HTimerInterrupt : Z :=
  Z.lor riscv_E_TimerInterrupt (mode_code RISCV_MODE_HYPERVISOR).
Definition riscv_E_MTimerInterrupt : Z :=
  Z.lor riscv_E_TimerInterrupt (mode_code RISCV_MODE_MACHINE).
Definition riscv_E_UExternalInterrupt : Z :=
  Z.lor riscv_E_ExternalInterrupt (mode_code RISCV_MODE_USER).
Definition riscv_E_SExternalInterrupt : Z :=
  Z.lor riscv_E_ExternalInterrupt (mode_code RISCV_MODE_SUPERVISOR).
Definition riscv_E_HExternalInterrupt : Z :=
  Z.lor riscv_E_ExternalInterrupt (mode_code RISCV_MODE_HYPERVISOR).
Definition riscv_E_MExternalInterrupt : Z :=
  Z.lor riscv_E_ExternalInterrupt (mode_code RISCV_MODE_MACHINE).

(** The enumerator that follows the last standard interrupt; it sizes the
    priority table of [getIntPri]. *)
Definition riscv_E_Last : Z := riscv_E_MExternalInterrupt + 1.

(** [IS_INTERRUPT] and [GET_ECODE]; the code is held in an [Uns32]. *)
Definition IS_INTERRUPT (exception : Z) : bool :=
  to_Bool (Z.land exception riscv_E_Interrupt).
Definition GET_ECODE (exception : Z) : Z :=
  to_Uns32 (Z.land exception (Z.lnot riscv_E_Interrupt)).

(* ------------------------------------------------------------------------- *)
(** ** Other enumerations and constants declared outside this file *)

(** Modelled from the spec: interrupt-controller mode, direct (0) or
    vectored (1), as encoded by the MODE field of the trap-vector CSRs. *)
Definition riscv_int_Direct : Z := 0.
Definition riscv_int_Vectored : Z := 1.

(** Modelled from the spec: causes recorded in the debug-cause field on entry
    to Debug mode. *)
Definition DMC_NONE : Z := 0.
Definition DMC_EBREAK : Z := 1.
Definition DMC_HALTREQ : Z := 3.
Definition DMC_STEP : Z := 4.
Definition DMC_RESETHALTREQ : Z := 5.

(** Modelled from the spec: the halt reasons, one bit each, kept in the
    [disable] bitmask ("disable |= reason" / "disable &= ~reason"). *)
Definition RVD_WFI : Z := 0x1.
Definition RVD_RESET : Z := 0x2.
Definition RVD_DEBUG : Z := 0x4.
Definition RVD_RESTART_WFI : Z := RVD_WFI.

(** Modelled from the spec: the configured "debug interrupts vs. halts"
    policy. *)
Inductive riscvDMMode : Type := RVDM_NONE | RVDM_INTERRUPT | RVDM_HALT.

Definition riscvDMMode_eqb (a b : riscvDMMode) : bool :=
  match a, b with
  | RVDM_NONE, RVDM_NONE | RVDM_INTERRUPT, RVDM_INTERRUPT
  | RVDM_HALT, RVDM_HALT => true
  | _, _ => false
  end.

(** Modelled from the spec: the privileged-spec version that is the fixed
    threshold of [clearMPRV]; versions are ordered by their number. *)
Definition RVPV_20190405 : Z := 1.

(** Modelled from the spec: architecture feature bits, one per extension
    letter. *)
Definition ISA_C : Z := Z.shiftl 1 2.
Definition ISA_N : Z := Z.shiftl 1 13.
Definition ISA_S : Z := Z.shiftl 1 18.
Definition ISA_U : Z := Z.shiftl 1 20.

(** The tag that stands for "no exclusive access", all ones in 64 bits. *)
Definition RISCV_NO_TAG : Z := 2 ^ 64 - 1.

(** The access-fault detail that stands for "none". *)
Definition riscv_AFault_None : Z := 0.

(* ------------------------------------------------------------------------- *)
(** ** The CSR register file *)

(** The macro [TARGET_MODE_X] pastes a mode letter into CSR names
    ([mstatus.MIE], [scause], [uepc], ...); [xmode] is that letter. *)
Inductive xmode : Type := xM | xS | xU.

(** The named CSR fields this file reads or writes. *)
Inductive csrField : Type :=
  | mstatus_xIE (x : xmode)
  | mstatus_xPIE (x : xmode)
  | mstatus_MPP
  | mstatus_SPP
  | mstatus_MPRV
  | xcause_ExceptionCode (x : xmode)
  | xcause_Interrupt (x : xmode)
  | xepc (x : xmode)
  | xtval (x : xmode)
  | xtvec_BASE (x : xmode)
  | xtvec_MODE (x : xmode)
  | medeleg | sedeleg | mideleg | sideleg
  | mie | mip
  | vstart | vl
  | dcsr_prv | dcsr_cause | dcsr_step
  | dcsr_ebreakm | dcsr_ebreaks | dcsr_ebreaku
  | dcsr_stopcount | dcsr_nmip
  | dpc.

Definition xmode_eqb (a b : xmode) : bool :=
  match a, b with
  | xM, xM | xS, xS | xU, xU => true
  | _, _ => false
  end.

Definition csrField_eqb (f g : csrField) : bool :=
  match f, g with
  | mstatus_xIE a, mstatus_xIE b | mstatus_xPIE a, mstatus_xPIE b
  | xcause_ExceptionCode a, xcause_ExceptionCode b
  | xcause_Interrupt a, xcause_Interrupt b
  | xepc a, xepc b | xtval a, xtval b
  | xtvec_BASE a, xtvec_BASE b | xtvec_MODE a, xtvec_MODE b => xmode_eqb a b
  | mstatus_MPP, mstatus_MPP | mstatus_SPP, mstatus_SPP
  | mstatus_MPRV, mstatus_MPRV
  | medeleg, medeleg | sedeleg, sedeleg | mideleg, mideleg
  | sideleg, sideleg | mie, mie | mip, mip | vstart, vstart | vl, vl
  | dcsr_prv, dcsr_prv | dcsr_cause, dcsr_cause | dcsr_step, dcsr_step
  | dcsr_ebreakm, dcsr_ebreakm | dcsr_ebreaks, dcsr_ebreaks
  | dcsr_ebreaku, dcsr_ebreaku | dcsr_stopcount, dcsr_stopcount
  | dcsr_nmip, dcsr_nmip | dpc, dpc => true
  | _, _ => false
  end.

(** Modelled from the spec: the bit-packed layout of the CSRs is declared in
    a header that is not part of this file.  A field holds as many bits as
    the RISC-V Privileged Architecture gives it; a whole register holds XLEN
    bits.  Reads and writes below keep exactly these bits. *)
Definition fieldBits (xlen : Z) (f : csrField) : Z :=
  match f with
  | mstatus_xIE _ | mstatus_xPIE _ | mstatus_SPP | mstatus_MPRV
  | xcause_Interrupt _
  | dcsr_step | dcsr_ebreakm | dcsr_ebreaks | dcsr_ebreaku
  | dcsr_stopcount | dcsr_nmip => 1
  | mstatus_MPP | xtvec_MODE _ | dcsr_prv => 2
  | dcsr_cause => 3
  | xcause_ExceptionCode _ => xlen - 1
  | xtvec_BASE _ => xlen - 2
  | _ => xlen
  end.

(* ------------------------------------------------------------------------- *)
(** ** The hart *)

(** Calls that leave this file: into the simulator ([vmirt...]), into
    derived models (the notifiers of the extension callback list), into the
    vector unit and to the message log. *)
Inductive event : Type :=
  | EvAbortRepeat
  | EvHalt
  | EvRestartNext
  | EvInterrupt
  | EvDoSynchronousInterrupt
  | EvWriteNetPortDM (DM : bool)
  | EvTrapNotifier (clientData : Z) (mode : riscvMode)
  | EvERETNotifier (clientData : Z) (mode : riscvMode)
  | EvRefreshVectorPMKey
  | EvMessageIMA (exception tval : Z)
  | EvMessageNDM.

(** One record of the extension callback list: which notifiers are set, and
    the client data handed back to them. *)
Record riscvExtCB : Type := {
  trapNotifier : bool;
  ERETNotifier : bool;
  clientData : Z
}.

Record riscvConfig : Type := {
  arch : Z;
  xret_preserves_lr : bool;
  tval_ii_code : bool;
  debug_mode : riscvDMMode
}.

(** The hart state.  The first group is only read by the operations of this
    file: the configuration, the current architecture, the privileged-spec
    version, XLEN, the write masks of the CSRs, the custom interrupt modes
    ([MIMode], [SIMode], [UIMode]), the external-interrupt-ID latches, the
    extension callback list, the pending access-fault detail, and what
    [vmirtGetPCDS] reports of a delay slot.  The second group is updated:
    the current mode, the Debug mode flags, the halt reasons, the program
    counter held by the simulator, the last exception, the exclusive-access
    tag, the counter bases, the latched access-fault detail, the
    first-only-fault flag, the CSR values, and the log of outgoing calls. *)
Record riscv : Type := {
  configInfo : riscvConfig;
  currentArch : Z;
  privVersion : Z;
  XLEN : Z;
  verbose : bool;
  csrMask : csrField -> Z;
  xIMode : xmode -> Z;
  extInt : list Z;
  extCBs : list riscvExtCB;
  AFErrorIn : Z;
  jumpBase : Z;
  dsOffset : Z;
  mode : riscvMode;
  DM : bool;
  DMStall : bool;
  disable : Z;
  PC : Z;
  exception : Z;
  exclusiveTag : Z;
  baseCycles : Z;
  baseInstructions : Z;
  AFErrorOut : Z;
  vFirstFault : bool;
  csr : csrField -> Z;
  events : list event
}.

Definition set_mode (v : riscvMode) (r : riscv) : riscv :=
  Build_riscv
    (configInfo r) (currentArch r) (privVersion r) (XLEN r) (verbose r)
    (csrMask r) (xIMode r) (extInt r) (extCBs r) (AFErrorIn r) (jumpBase r)
    (dsOffset r) v (DM r) (DMStall r) (disable r) (PC r) (exception r)
    (exclusiveTag r) (baseCycles r) (baseInstructions r) (AFErrorOut r)
    (vFirstFault r) (csr r) (events r).

Definition set_DM (v : bool) (r : riscv) : riscv :=
  Build_riscv
    (configInfo r) (currentArch r) (privVersion r) (XLEN r) (verbose r)
    (csrMask r) (xIMode r) (extInt r) (extCBs r) (AFErrorIn r) (jumpBase r)
    (dsOffset r) (mode r) v (DMStall r) (disable r) (PC r) (exception r)
    (exclusiveTag r) (baseCycles r) (baseInstructions r) (AFErrorOut r)
    (vFirstFault r) (csr r) (events r).

Definition set_DMStall (v : bool) (r : riscv) : riscv :=
  Build_riscv
    (configInfo r) (currentArch r) (privVersion r) (XLEN r) (verbose r)
    (csrMask r) (xIMode r) (extInt r) (extCBs r) (AFErrorIn r) (jumpBase r)
    (dsOffset r) (mode r) (DM r) v (disable r) (PC r) (exception r)
    (exclusiveTag r) (baseCycles r) (baseInstructions r) (AFErrorOut r)
    (vFirstFault r) (csr r) (events r).

Definition set_disable (v : Z) (r : riscv) : riscv :=
  Build_riscv
    (configInfo r) (currentArch r) (privVersion r) (XLEN r) (verbose r)
    (csrMask r) (xIMode r) (extInt r) (extCBs r) (AFErrorIn r) (jumpBase r)
    (dsOffset r) (mode r) (DM r) (DMStall r) v (PC r) (exception r)
    (exclusiveTag r) (baseCycles r) (baseInstructions r) (AFErrorOut r)
    (vFirstFault r) (csr r) (events r).

Definition set_PC (v : Z) (r : riscv) : riscv :=
  Build_riscv
    (configInfo r) (currentArch r) (privVersion r) (XLEN r) (verbose r)
    (csrMask r) (xIMode r) (extInt r) (extCBs r) (AFErrorIn r) (jumpBase r)
    (dsOffset r) (mode r) (DM r) (DMStall r) (disable r) v (exception r)
    (exclusiveTag r) (baseCycles r) (baseInstructions r) (AFErrorOut r)
    (vFirstFault r) (csr r) (events r).

Definition set_exception (v : Z) (r : riscv) : riscv :=
  Build_riscv
    (configInfo r) (currentArch r) (privVersion r) (XLEN r) (verbose r)
    (csrMask r) (xIMode r) (extInt r) (extCBs r) (AFErrorIn r) (jumpBase r)
    (dsOffset r) (mode r) (DM r) (DMStall r) (disable r) (PC r) v
    (exclusiveTag r) (baseCycles r) (baseInstructions r) (AFErrorOut r)
    (vFirstFault r) (csr r) (events r).

Definition set_exclusiveTag (v : Z) (r : riscv) : riscv :=
  Build_riscv
    (configInfo r) (currentArch r) (privVersion r) (XLEN r) (verbose r)
    (csrMask r) (xIMode r) (extInt r) (extCBs r) (AFErrorIn r) (jumpBase r)
    (dsOffset r) (mode r) (DM r) (DMStall r) (disable r) (PC r) (exception r)
    v (baseCycles r) (baseInstructions r) (AFErrorOut r) (vFirstFault r)
    (csr r) (events r).

Definition set_baseCycles (v : Z) (r : riscv) : riscv :=
  Build_riscv
    (configInfo r) (currentArch r) (privVersion r) (XLEN r) (verbose r)
    (csrMask r) (xIMode r) (extInt r) (extCBs r) (AFErrorIn r) (jumpBase r)
    (dsOffset r) (mode r) (DM r) (DMStall r) (disable r) (PC r) (exception r)
    (exclusiveTag r) v (baseInstructions r) (AFErrorOut r) (vFirstFault r)
    (csr r) (events r).

Definition set_baseInstructions (v : Z) (r : riscv) : riscv :=
  Build_riscv
    (configInfo r) (currentArch r) (privVersion r) (XLEN r) (verbose r)
    (csrMask r) (xIMode r) (extInt r) (extCBs r) (AFErrorIn r) (jumpBase r)
    (dsOffset r) (mode r) (DM r) (DMStall r) (disable r) (PC r) (exception r)
    (exclusiveTag r) (baseCycles r) v (AFErrorOut r) (vFirstFault r) (csr r)
    (events r).

Definition set_AFErrorOut (v : Z) (r : riscv) : riscv :=
  Build_riscv
    (configInfo r) (currentArch r) (privVersion r) (XLEN r) (verbose r)
    (csrMask r) (xIMode r) (extInt r) (extCBs r) (AFErrorIn r) (jumpBase r)
    (dsOffset r) (mode r) (DM r) (DMStall r) (disable r) (PC r) (exception r)
    (exclusiveTag r) (baseCycles r) (baseInstructions r) v (vFirstFault r)
    (csr r) (events r).

Definition set_vFirstFault (v : bool) (r : riscv) : riscv :=
  Build_riscv
    (configInfo r) (currentArch r) (privVersion r) (XLEN r) (verbose r)
    (csrMask r) (xIMode r) (extInt r) (extCBs r) (AFErrorIn r) (jumpBase r)
    (dsOffset r) (mode r) (DM r) (DMStall r) (disable r) (PC r) (exception r)
    (exclusiveTag r) (baseCycles r) (baseInstructions r) (AFErrorOut r) v
    (csr r) (events r).

Definition set_csr (v : (csrField -> Z)) (r : riscv) : riscv :=
  Build_riscv
    (configInfo r) (currentArch r) (privVersion r) (XLEN r) (verbose r)
    (csrMask r) (xIMode r) (extInt r) (extCBs r) (AFErrorIn r) (jumpBase r)
    (dsOffset r) (mode r) (DM r) (DMStall r) (disable r) (PC r) (exception r)
    (exclusiveTag r) (baseCycles r) (baseInstructions r) (AFErrorOut r)
    (vFirstFault r) v (events r).

Definition set_events (v : (list event)) (r : riscv) : riscv :=
  Build_riscv
    (configInfo r) (currentArch r) (privVersion r) (XLEN r) (verbose r)
    (csrMask r) (xIMode r) (extInt r) (extCBs r) (AFErrorIn r) (jumpBase r)
    (dsOffset r) (mode r) (DM r) (DMStall r) (disable r) (PC r) (exception r)
    (exclusiveTag r) (baseCycles r) (baseInstructions r) (AFErrorOut r)
    (vFirstFault r) (csr r) v.

(** The external-interrupt-ID latches are written by the interrupt-ID input
    ports. *)
Definition set_extInt (v : list Z) (r : riscv) : riscv :=
  Build_riscv
    (configInfo r) (currentArch r) (privVersion r) (XLEN r) (verbose r)
    (csrMask r) (xIMode r) v (extCBs r) (AFErrorIn r) (jumpBase r)
    (dsOffset r) (mode r) (DM r) (DMStall r) (disable r) (PC r) (exception r)
    (exclusiveTag r) (baseCycles r) (baseInstructions r) (AFErrorOut r)
    (vFirstFault r) (csr r) (events r).

(* ------------------------------------------------------------------------- *)
(** ** CSR access *)

Definition keepBits (n z : Z) : Z := z mod 2 ^ n.

(** [RD_CSR_FIELD] and [WR_CSR_FIELD]: a field is read and written through
    its width. *)
Definition RD_CSR_FIELD (r : riscv) (f : csrField) : Z :=
  keepBits (fieldBits (XLEN r) f) (csr r f).

Definition WR_CSR_FIELD (r : riscv) (f : csrField) (v : Z) : riscv :=
  set_csr
    (fun g =>
       if csrField_eqb g f then keepBits (fieldBits (XLEN r) f) v
       else csr r g)
    r.

(** [RD_CSR] and [WR_CSR] access a whole register. *)
Definition RD_CSR (r : riscv) (f : csrField) : Z := RD_CSR_FIELD r f.
Definition WR_CSR (r : riscv) (f : csrField) (v : Z) : riscv :=
  WR_CSR_FIELD r f v.

(** [RD_CSR_MASK]: the writable bits of a register; [MASK_CSR] keeps only
    those bits of its current value. *)
Definition RD_CSR_MASK (r : riscv) (f : csrField) : Z :=
  keepBits (fieldBits (XLEN r) f) (csrMask r f).

Definition MASK_CSR (r : riscv) (f : csrField) : riscv :=
  WR_CSR r f (Z.land (RD_CSR r f) (RD_CSR_MASK r f)).

(** An outgoing call is appended to the log. *)
Definition emit (e : event) (r : riscv) : riscv :=
  set_events (events r ++ [e]) r.

(* ------------------------------------------------------------------------- *)
(** ** Mode queries *)

Definition getCurrentMode (r : riscv) : riscvMode := mode r.
Definition inDebugMode (r : riscv) : bool := DM r.

(** Modelled from the spec: [riscvSetMode] is defined outside this file; it
    switches the current privilege mode to the given one. *)
Definition riscvSetMode (r : riscv) (m : riscvMode) : riscv := set_mode m r.



(* ------------------------------------------------------------------------- *)
(** ** Vector unit *)

(** Modelled from the spec: [riscvSetVL] is defined outside this file; it
    sets the effective vector length. *)
Definition riscvSetVL (r : riscv) (v : Z) : riscv := WR_CSR r vl v.

(** Modelled from the spec: [riscvRefreshVectorPMKey] is defined outside this
    file; it is the dependent polymorphic re-key operation, seen here as an
    outgoing call. *)
Definition riscvRefreshVectorPMKey (r : riscv) : riscv :=
  emit EvRefreshVectorPMKey r.

(* ------------------------------------------------------------------------- *)
(** ** Utilities *)

Definition getPC (r : riscv) : Z := PC r.

(** [setPCxRET]: the return address loses its two low bits when compressed
    instructions are not currently enabled. *)
Definition setPCxRET (r : riscv) (newPC : Z) : riscv :=
  let newPC :=
    if negb (to_Bool (Z.land (currentArch r) ISA_C))
    then Z.land newPC (-4) else newPC in
  set_PC newPC r.

Definition clearEA (r : riscv) : riscv := set_exclusiveTag RISCV_NO_TAG r.


(** [handleFF]: has an active first-only-fault exception been encountered,
    in which case no exception is taken? *)
Definition handleFF (r : riscv) : riscv * bool :=
  if vFirstFault r then
    let r := set_vFirstFault false r in
    if to_Bool (RD_CSR r vstart) then
      let r := riscvSetVL r (RD_CSR r vstart) in
      let r := riscvRefreshVectorPMKey r in
      (r, true)
    else (r, false)
  else (r, false).

Definition haltProcessor (r : riscv) (reason : Z) : riscv :=
  let r := if negb (to_Bool (disable r)) then emit EvHalt r else r in
  set_disable (Z.lor (disable r) reason) r.

Definition restartProcessor (r : riscv) (reason : Z) : riscv :=
  let r := set_disable (Z.land (disable r) (Z.lnot reason)) r in
  if negb (to_Bool (disable r)) then emit EvRestartNext r else r.

(** [getEPC]: the address to return to after an exception; inside an
    instruction-table expansion it is the original instruction. *)
Definition getEPC (r : riscv) : Z :=
  if to_Bool (dsOffset r) then jumpBase r else PC r.

Definition getIMode (customMode tvecMode : Z) : Z :=
  if to_Bool tvecMode then tvecMode else customMode.

(** [TARGET_MODE_X]: the update of the CSRs of mode X on a trap to it.  The
    macro assigns its [_BASE] and [_MODE] arguments; they are returned. *)
Definition TARGET_MODE_X (r : riscv) (x : xmode) (isInt : bool)
  (ecode EPC tval : Z) : riscv * Z * Z :=
  let IE := RD_CSR_FIELD r (mstatus_xIE x) in
  let r := WR_CSR_FIELD r (mstatus_xPIE x) IE in
  let r := WR_CSR_FIELD r (mstatus_xIE x) 0 in
  let r := WR_CSR_FIELD r (xcause_ExceptionCode x) ecode in
  let r := WR_CSR_FIELD r (xcause_Interrupt x) (of_Bool isInt) in
  let epcMask := RD_CSR_MASK r (xepc x) in
  let r := WR_CSR_FIELD r (xepc x) (Z.land EPC epcMask) in
  let r := WR_CSR_FIELD r (xtval x) tval in
  let base := to_Uns64 (Z.shiftl (RD_CSR_FIELD r (xtvec_BASE x)) 2) in
  let mode := getIMode (xIMode r x) (RD_CSR_FIELD r (xtvec_MODE x)) in
  (r, base, mode).

Definition retiredCode (exception : Z) : bool :=
  (exception =? riscv_E_Breakpoint)
  || (exception =? riscv_E_EnvironmentCallFromUMode)
  || (exception =? riscv_E_EnvironmentCallFromSMode)
  || (exception =? riscv_E_EnvironmentCallFromHMode)
  || (exception =? riscv_E_EnvironmentCallFromMMode).

Definition accessFaultCode (exception : Z) : bool :=
  (exception =? riscv_E_InstructionAccessFault)
  || (exception =? riscv_E_LoadAccessFault)
  || (exception =? riscv_E_StoreAMOAccessFault).

(** The two loops over the extension callback list. *)
Definition notifyTrapEntry (r : riscv) (m : riscvMode) : riscv :=
  fold_left
    (fun r extCB =>
       if trapNotifier extCB then emit (EvTrapNotifier (clientData extCB) m) r
       else r)
    (extCBs r) r.

Definition notifyERETDerived (r : riscv) (m : riscvMode) : riscv :=
  fold_left
    (fun r extCB =>
       if ERETNotifier extCB then emit (EvERETNotifier (clientData extCB) m) r
       else r)
    (extCBs r) r.

Definition isExternalInterrupt (exception : Z) : bool :=
  (exception >=? riscv_E_UExternalInterrupt)
  && (exception <=? riscv_E_MExternalInterrupt).

(** [getIE]: the effective interrupt enable of a mode, given its raw bit. *)
Definition getIE (r : riscv) (IE : bool) (modeIE : riscvMode) : bool :=
  let mode := getCurrentMode r in
  if mode_code mode <? mode_code modeIE then true
  else if mode_code mode >? mode_code modeIE then false
  else IE.

Definition getPendingInterrupts (r : riscv) : Z :=
  Z.land (RD_CSR r mie) (RD_CSR r mip).

(** [getPendingAndEnabledInterrupts]: the mask of pending-and-enabled
    interrupts; all interrupts are disabled in Debug mode. *)
Definition getPendingAndEnabledInterrupts (r : riscv) : Z :=
  let result := if inDebugMode r then 0 else getPendingInterrupts r in
  if to_Bool result then
    let MIE := to_Bool (RD_CSR_FIELD r (mstatus_xIE xM)) in
    let SIE := to_Bool (RD_CSR_FIELD r (mstatus_xIE xS)) in
    let UIE := to_Bool (RD_CSR_FIELD r (mstatus_xIE xU)) in
    let MIE := getIE r MIE RISCV_MODE_MACHINE in
    let SIE := getIE r SIE RISCV_MODE_SUPERVISOR in
    let UIE := getIE r UIE RISCV_MODE_USER in
    let mideleg_ := RD_CSR r mideleg in
    let sideleg_ := Z.land (RD_CSR r sideleg) mideleg_ in
    let mMask := to_Uns64 (Z.lnot mideleg_) in
    let sMask := Z.land mideleg_ (to_Uns64 (Z.lnot sideleg_)) in
    let uMask := sideleg_ in
    let result :=
      if negb MIE then Z.land result (to_Uns64 (Z.lnot mMask)) else result in
    let result :=
      if negb SIE then Z.land result (to_Uns64 (Z.lnot sMask)) else result in
    let result :=
      if negb UIE then Z.land result (to_Uns64 (Z.lnot uMask)) else result in
    result
  else result.

(** [riscvTestInterrupt]: restart a hart halted in WFI when interrupts are
    pending, and schedule interrupt handling when some are also enabled.
    (The report of the interrupt state under the debug flag only prints.) *)
Definition riscvTestInterrupt (r : riscv) : riscv :=
  let pendingEnabled := getPendingAndEnabledInterrupts r in
  let r :=
    if to_Bool (getPendingInterrupts r)
    then restartProcessor r RVD_RESTART_WFI else r in
  if to_Bool pendingEnabled then emit EvDoSynchronousInterrupt r else r.

(** [getIntPri]: the fixed priority of the indexed interrupt; local and
    custom interrupts have the default 0 of the table, as have indices
    beyond it. *)
Definition INT_INDEX (name : Z) : Z := name - riscv_E_Interrupt.

Definition intPri (intNum : Z) : Z :=
  if intNum =? INT_INDEX riscv_E_UTimerInterrupt then 1
  else if intNum =? INT_INDEX riscv_E_USWInterrupt then 2
  else if intNum =? INT_INDEX riscv_E_UExternalInterrupt then 3
  else if intNum =? INT_INDEX riscv_E_STimerInterrupt then 4
  else if intNum =? INT_INDEX riscv_E_SSWInterrupt then 5
  else if intNum =? INT_INDEX riscv_E_SExternalInterrupt then 6
  else if intNum =? INT_INDEX riscv_E_MTimerInterrupt then 7
  else if intNum =? INT_INDEX riscv_E_MSWInterrupt then 8
  else if intNum =? INT_INDEX riscv_E_MExternalInterrupt then 9
  else 0.

Definition getIntPri (intNum : Z) : Z :=
  if intNum >=? INT_INDEX riscv_E_Last then 0 else intPri intNum.

(** Descriptor of a pending-and-enabled interrupt. *)
Record intDesc : Type := {
  ecode : Z;
  emode : riscvMode
}.

(** The [ecode] of "nothing selected yet": [-1] held in an [Uns32]. *)
Definition NO_ECODE : Z := to_Uns32 (-1).

(** The code [riscvTakeException] reports for a trap: for an external
    interrupt the latched external-interrupt ID of its mode when that is not
    zero, else the bare code. *)
Definition reportedCode (r : riscv) (exception : Z) : Z :=
  if isExternalInterrupt exception then
    let id :=
      nth (Z.to_nat (to_Uns32 (exception - riscv_E_ExternalInterrupt)))
        (extInt r) 0 in
    if to_Bool id then id else GET_ECODE exception
  else GET_ECODE exception.

(** The CSRs a trap to mode X goes through: those of User mode, of
    Supervisor mode, and in every other case of Machine mode, as the three
    branches of [riscvTakeException] have it. *)
Definition trapCSRs (modeX : riscvMode) : xmode :=
  match modeX with
  | RISCV_MODE_USER => xU
  | RISCV_MODE_SUPERVISOR => xS
  | _ => xM
  end.

(* ------------------------------------------------------------------------- *)
(** ** Operations that depend on code outside this file *)

Section Hart.

(** The value of an out-of-range [1<<ecode]; see [shl_1]. *)
Variable shl_undef : Z -> Z.

(** [riscvInhibitInstret] and [riscvInhibitCycle] tell whether counting of
    retired instructions, or of cycles, is inhibited. *)
Variable riscvInhibitInstret : riscv -> bool.
Variable riscvInhibitCycle : riscv -> bool.

(** [riscvGetInstruction] fetches the instruction pattern at an address. *)
Variable riscvGetInstruction : riscv -> Z -> Z.

(** [riscvPreInhibit] snapshots the count state before a possible change
    of the inhibit state and [riscvPostInhibit] refreshes the counters
    after it: it yields the new bases of the cycle and instruction
    counters, and touches nothing else. *)
Variable riscvCountState : Type.
Variable riscvPreInhibit : riscv -> riscvCountState.
Variable riscvPostInhibit : riscv -> riscvCountState -> bool -> Z * Z.

Definition doPostInhibit (r : riscv) (state : riscvCountState)
  (preIncrement : bool) : riscv :=
  let '(cycles, instructions) := riscvPostInhibit r state preIncrement in
  set_baseInstructions instructions (set_baseCycles cycles r).

(** The mode to which an interrupt, or an exception, is taken.  The
    delegation registers pass through the [Uns32] parameters of
    [getModeX]. *)
Definition getInterruptModeX (r : riscv) (ecode : Z) : riscvMode :=
  getModeX shl_undef (getCurrentMode r)
    (to_Uns32 (RD_CSR r mideleg)) (to_Uns32 (RD_CSR r sideleg)) ecode.

Definition getExceptionModeX (r : riscv) (ecode : Z) : riscvMode :=
  getModeX shl_undef (getCurrentMode r)
    (to_Uns32 (RD_CSR r medeleg)) (to_Uns32 (RD_CSR r sedeleg)) ecode.

(** The mode [riscvTakeException] takes the given trap to. *)
Definition trapModeX (r : riscv) (exception : Z) : riscvMode :=
  if IS_INTERRUPT exception
  then getInterruptModeX r (GET_ECODE exception)
  else getExceptionModeX r (GET_ECODE exception).

(* ----------------------------------------------------------------------- *)
(** *** Debug mode *)

Definition updateDMStall (r : riscv) (DMStall : bool) : riscv :=
  let r := set_DMStall DMStall r in
  if riscvDMMode_eqb (debug_mode (configInfo r)) RVDM_INTERRUPT then r
  else if DMStall then haltProcessor r RVD_DEBUG
  else restartProcessor r RVD_DEBUG.

Definition setDM (r : riscv) (DM : bool) : riscv :=
  emit (EvWriteNetPortDM DM) (set_DM DM r).

Definition enterDM (r : riscv) (cause : Z) : riscv :=
  let r :=
    if negb (inDebugMode r) then
      let state := riscvPreInhibit r in
      let r := setDM r true in
      let r := WR_CSR_FIELD r dcsr_prv (mode_code (getCurrentMode r)) in
      let r := WR_CSR_FIELD r dcsr_cause cause in
      let r := WR_CSR r dpc (getEPC r) in
      let r := riscvSetMode r RISCV_MODE_MACHINE in
      doPostInhibit r state false
    else r in
  let r := updateDMStall r true in
  if riscvDMMode_eqb (debug_mode (configInfo r)) RVDM_INTERRUPT
  then emit EvInterrupt r else r.

(* ----------------------------------------------------------------------- *)
(** *** Taking exceptions *)

Definition riscvTakeException (r : riscv) (exception tval : Z) : riscv :=
  if inDebugMode r then
    let r := emit EvAbortRepeat r in
    enterDM r DMC_NONE
  else
    let isInt := IS_INTERRUPT exception in
    let ecode := GET_ECODE exception in
    let EPC := getEPC r in
    let modeY := getCurrentMode r in
    let r :=
      if negb (retiredCode exception) && negb (riscvInhibitInstret r)
      then set_baseInstructions (to_Uns64 (baseInstructions r + 1)) r
      else r in
    let r :=
      if accessFaultCode exception then set_AFErrorOut (AFErrorIn r) r
      else set_AFErrorOut riscv_AFault_None r in
    let r := clearEA r in
    let modeX :=
      if isInt then getInterruptModeX r ecode
      else getExceptionModeX r ecode in
    let ecodeMod :=
      if isExternalInterrupt exception then
        let offset := to_Uns32 (exception - riscv_E_ExternalInterrupt) in
        let id := nth (Z.to_nat offset) (extInt r) 0 in
        if to_Bool id then id else ecode
      else ecode in
    let '(r, base, mode) :=
      match modeX with
      | RISCV_MODE_USER =>
          TARGET_MODE_X r xU isInt ecodeMod EPC tval
      | RISCV_MODE_SUPERVISOR =>
          let '(r, base, mode) :=
            TARGET_MODE_X r xS isInt ecodeMod EPC tval in
          (WR_CSR_FIELD r mstatus_SPP (mode_code modeY), base, mode)
      | _ =>
          let '(r, base, mode) :=
            TARGET_MODE_X r xM isInt ecodeMod EPC tval in
          (WR_CSR_FIELD r mstatus_MPP (mode_code modeY), base, mode)
      end in
    let handlerPC :=
      if (mode =? riscv_int_Direct) || negb isInt then base
      else to_Uns64 (base + to_Uns32 (4 * ecode)) in
    let r := riscvSetMode r modeX in
    let r := set_exception exception r in
    let r := set_PC handlerPC r in
    notifyTrapEntry r modeX.

Definition reportMemoryException (r : riscv) (exception tval : Z)
  : riscv :=
  if verbose r then emit (EvMessageIMA exception tval) r else r.

(** [riscvTakeMemoryException]: take an exception because of a memory
    access error, unless a fault-only-first instruction suppresses it. *)
Definition riscvTakeMemoryException (r : riscv) (exception tval : Z)
  : riscv :=
  let r := MASK_CSR r vstart in
  let '(r, suppress) := handleFF r in
  if negb suppress then
    let r := reportMemoryException r exception tval in
    riscvTakeException r exception tval
  else r.

Definition riscvIllegalInstruction (r : riscv) : riscv :=
  let tval :=
    if tval_ii_code (configInfo r)
    then riscvGetInstruction r (getPC r) else 0 in
  riscvTakeException r riscv_E_IllegalInstruction tval.

Definition riscvInstructionAddressMisaligned (r : riscv) (tval : Z)
  : riscv :=
  let exception := riscv_E_InstructionAddressMisaligned in
  let r := reportMemoryException r exception tval in
  riscvTakeException r exception (Z.land tval (-2)).

Definition riscvECALL (r : riscv) : riscv :=
  let mode := getCurrentMode r in
  let exception := riscv_E_EnvironmentCallFromUMode + mode_code mode in
  riscvTakeException r exception 0.

(* ----------------------------------------------------------------------- *)
(** *** Exception return *)


Definition clearMPRV (r : riscv) (newMode : riscvMode) : riscv :=
  if (privVersion r >? RVPV_20190405)
     && negb (mode_code newMode =? mode_code RISCV_MODE_MACHINE)
  then WR_CSR_FIELD r mstatus_MPRV 0 else r.

Definition doERETCommon (r : riscv) (retMode newMode : riscvMode)
  (epc : Z) : riscv :=
  let r := riscvSetMode r newMode in
  let r := setPCxRET r epc in
  let r := notifyERETDerived r retMode in
  riscvTestInterrupt r.




(* ----------------------------------------------------------------------- *)
(** *** Leaving Debug mode *)

Definition leaveDM (r : riscv) : riscv :=
  let newMode := mode_of_code (RD_CSR_FIELD r dcsr_prv) in
  let retMode := RISCV_MODE_MACHINE in
  let state := riscvPreInhibit r in
  let r := setDM r false in
  let r := clearMPRV r newMode in
  let r := doERETCommon r retMode newMode (RD_CSR_FIELD r dpc) in
  let r := doPostInhibit r state false in
  updateDMStall r false.

Definition riscvDRET (r : riscv) : riscv :=
  if negb (inDebugMode r) then
    let r := if verbose r then emit EvMessageNDM r else r in
    riscvIllegalInstruction r
  else leaveDM r.

Definition riscvEBREAK (r : riscv) : riscv :=
  let mode := getCurrentMode r in
  let useDM :=
    if inDebugMode r then true
    else match mode with
         | RISCV_MODE_USER => to_Bool (RD_CSR_FIELD r dcsr_ebreaku)
         | RISCV_MODE_SUPERVISOR => to_Bool (RD_CSR_FIELD r dcsr_ebreaks)
         | RISCV_MODE_MACHINE => to_Bool (RD_CSR_FIELD r dcsr_ebreakm)
         | RISCV_MODE_HYPERVISOR => false
         end in
  if useDM then
    let r :=
      if to_Bool (RD_CSR_FIELD r dcsr_stopcount) then
        let r :=
          if negb (riscvInhibitCycle r)
          then set_baseCycles (to_Uns64 (baseCycles r + 1)) r else r in
        if negb (riscvInhibitInstret r)
        then set_baseInstructions (to_Uns64 (baseInstructions r + 1)) r
        else r
      else r in
    enterDM r DMC_EBREAK
  else riscvTakeException r riscv_E_Breakpoint (getPC r).

(* ----------------------------------------------------------------------- *)
(** *** Interrupt arbitration *)

(** The body of the loop of [doInterrupt] at a set bit of the mask: the
    candidate [try] replaces [selected] when nothing is selected yet, when
    its destination mode is higher, or when the modes tie and its fixed
    priority is not lower. *)
Definition trySelect (r : riscv) (selected : intDesc) (ecode_ : Z)
  : intDesc :=
  let try :=
    {| ecode := ecode_; emode := getInterruptModeX r ecode_ |} in
  if ecode selected =? NO_ECODE then try
  else if mode_code (emode selected) <? mode_code (emode try) then try
  else if mode_code (emode selected) >? mode_code (emode try)
       then selected
  else if getIntPri (ecode selected) <=? getIntPri (ecode try) then try
  else selected.

(** The do-while loop of [doInterrupt] over a mask that is not zero, least
    significant bit first.  The binary digits of the mask drive it: the
    low digit is [intMask&1], the remaining digits are [intMask>>1], and
    the loop ends after the leading digit, when the shifted mask is
    zero. *)
Fixpoint doInterruptLoop (r : riscv) (intMask : positive) (ecode_ : Z)
  (selected : intDesc) : intDesc :=
  match intMask with
  | xH => trySelect r selected ecode_
  | xO rest => doInterruptLoop r rest (ecode_ + 1) selected
  | xI rest =>
      doInterruptLoop r rest (ecode_ + 1) (trySelect r selected ecode_)
  end.

(** The interrupt [doInterrupt] selects; [None] is the failed assertion on
    an empty mask. *)
Definition selectInterrupt (r : riscv) (intMask : Z) : option intDesc :=
  match intMask with
  | Zpos p =>
      Some (doInterruptLoop r p 0
              {| ecode := NO_ECODE; emode := RISCV_MODE_USER |})
  | _ => None
  end.

(** [doInterrupt]: process the highest-priority interrupt in the given
    mask of pending-and-enabled interrupts. *)
Definition doInterrupt (r : riscv) (intMask : Z) : option riscv :=
  match selectInterrupt r intMask with
  | Some selected =>
      Some (riscvTakeException r (riscv_E_Interrupt + ecode selected) 0)
  | None => None
  end.

(** The codes of the set bits of a mask, least significant bit first,
    counted from [ecode_]: the candidates the loop of [doInterrupt] sees, in
    its order. *)
Fixpoint maskBits (intMask : positive) (ecode_ : Z) : list Z :=
  match intMask with
  | xH => [ecode_]
  | xO rest => maskBits rest (ecode_ + 1)
  | xI rest => ecode_ :: maskBits rest (ecode_ + 1)
  end.

(** [selected] is a best candidate among the codes in [P]: it is one of
    them, no candidate has a higher destination mode, and no candidate with
    the same destination mode has a higher fixed priority. *)
Definition bestAmong (r : riscv) (P : Z -> Prop) (selected : intDesc)
  : Prop :=
  P (ecode selected) /\
  emode selected = getInterruptModeX r (ecode selected) /\
  forall k, P k ->
    mode_code (getInterruptModeX r k) <= mode_code (emode selected) /\
    (getInterruptModeX r k = emode selected ->
     getIntPri k <= getIntPri (ecode selected)).

End Hart.

(* ------------------------------------------------------------------------- *)
(** ** Fetch address snapping, signal edges and WFI *)

(** [riscvFetchSnap]: fetch addresses are always snapped to a 2-byte
    boundary, whether or not compressed instructions are implemented. *)
Definition riscvFetchSnap (thisPC : Z) : Z := Z.land thisPC (-2).

(** [posedge] takes two [Bool]s, [negedge] two [Uns32]s. *)
Definition posedge (old new : bool) : bool := negb old && new.
Definition negedge (old new : Z) : bool := to_Bool old && negb (to_Bool new).

(** [riscvWFI]: halt the hart in WFI state, unless it is in Debug mode or
    interrupts are pending. *)
Definition riscvWFI (r : riscv) : riscv :=
  if negb (inDebugMode r || to_Bool (getPendingInterrupts r))
  then haltProcessor r RVD_WFI else r.

(* ------------------------------------------------------------------------- *)
(** ** The table of exception descriptors *)

Record vmiExceptionInfo : Type := {
  name : string;
  code : Z;
  description : string
}.

(** A descriptor: the entry shown to the simulator, and the architecture
    bits a variant needs for the exception to exist (the member [arch] of
    the source). *)
Record riscvExceptionDesc : Type := {
  vmiInfo : vmiExceptionInfo;
  archDesc : Z
}.

Definition RISCV_EXCEPTION (_NAME : string) (_CODE _ARCH : Z)
  (_DESC : string) : riscvExceptionDesc :=
  {| vmiInfo := {| name := _NAME; code := _CODE; description := _DESC |};
     archDesc := _ARCH |}.

(** [exceptions]: the table, without its terminator. *)
Definition exceptions : list riscvExceptionDesc :=
  [ RISCV_EXCEPTION "InstructionAddressMisaligned"
      riscv_E_InstructionAddressMisaligned 0
      "Fetch from unaligned address";
    RISCV_EXCEPTION "InstructionAccessFault"
      riscv_E_InstructionAccessFault 0
      "No access permission for fetch";
    RISCV_EXCEPTION "IllegalInstruction"
      riscv_E_IllegalInstruction 0
      "Undecoded, unimplemented or disabled instruction";
    RISCV_EXCEPTION "Breakpoint"
      riscv_E_Breakpoint 0
      "EBREAK instruction executed";
    RISCV_EXCEPTION "LoadAddressMisaligned"
      riscv_E_LoadAddressMisaligned 0
      "Load from unaligned address";
    RISCV_EXCEPTION "LoadAccessFault"
      riscv_E_LoadAccessFault 0
      "No access permission for load";
    RISCV_EXCEPTION "StoreAMOAddressMisaligned"
      riscv_E_StoreAMOAddressMisaligned 0
      "Store/atomic memory operation at unaligned address";
    RISCV_EXCEPTION "StoreAMOAccessFault"
      riscv_E_StoreAMOAccessFault 0
      "No access permission for store/atomic memory operation";
    RISCV_EXCEPTION "EnvironmentCallFromUMode"
      riscv_E_EnvironmentCallFromUMode ISA_U
      "ECALL instruction executed in User mode";
    RISCV_EXCEPTION "EnvironmentCallFromSMode"
      riscv_E_EnvironmentCallFromSMode ISA_S
      "ECALL instruction executed in Supervisor mode";
    RISCV_EXCEPTION "EnvironmentCallFromMMode"
      riscv_E_EnvironmentCallFromMMode 0
      "ECALL instruction executed in Machine mode";
    RISCV_EXCEPTION "InstructionPageFault"
      riscv_E_InstructionPageFault 0
      "Page fault at fetch address";
    RISCV_EXCEPTION "LoadPageFault"
      riscv_E_LoadPageFault 0
      "Page fault at load address";
    RISCV_EXCEPTION "StoreAMOPageFault"
      riscv_E_StoreAMOPageFault 0
      "Page fault at store/atomic memory operation address";
    RISCV_EXCEPTION "USWInterrupt"
      riscv_E_USWInterrupt ISA_N
      "User software interrupt";
    RISCV_EXCEPTION "SSWInterrupt"
      riscv_E_SSWInterrupt ISA_S
      "Supervisor software interrupt";
    RISCV_EXCEPTION "MSWInterrupt"
      riscv_E_MSWInterrupt 0
      "Machine software interrupt";
    RISCV_EXCEPTION "UTimerInterrupt"
      riscv_E_UTimerInterrupt ISA_N
      "User timer interrupt";
    RISCV_EXCEPTION "STimerInterrupt"
      riscv_E_STimerInterrupt ISA_S
      "Supervisor timer interrupt";
    RISCV_EXCEPTION "MTimerInterrupt"
      riscv_E_MTimerInterrupt 0
      "Machine timer interrupt";
    RISCV_EXCEPTION "UExternalInterrupt"
      riscv_E_UExternalInterrupt ISA_N
      "User external interrupt";
    RISCV_EXCEPTION "SExternalInterrupt"
      riscv_E_SExternalInterrupt ISA_S
      "Supervisor external interrupt";
    RISCV_EXCEPTION "MExternalInterrupt"
      riscv_E_MExternalInterrupt 0
      "Machine external interrupt" ].

(** What [sprintf] prints for [%u]. *)
Definition print_u (z : Z) : string :=
  NilZero.string_of_uint (N.to_uint (Z.to_N (to_Uns32 z))).

(** [getExceptionDesc]: the description of the given exception; a null
    result is [None]. *)
Definition getExceptionDesc (exception : Z) : option string :=
  if exception >=? riscv_E_LocalInterrupt then
    Some ("Local interrupt " ++ print_u (exception - riscv_E_LocalInterrupt))%string
  else
    fold_left
      (fun result desc =>
         match result with
         | Some _ => result
         | None =>
             if code (vmiInfo desc) =? exception
             then Some (description (vmiInfo desc)) else None
         end)
      exceptions None.

(* ------------------------------------------------------------------------- *)
(** ** Net ports *)

Inductive vmiNetPortType : Type := vmi_NP_INPUT | vmi_NP_OUTPUT.

(** The net change callbacks of this file, as the ports name them. *)
Inductive vmiNetChangeFn : Type :=
  | CB_resetPortCB
  | CB_nmiPortCB
  | CB_haltreqPortCB
  | CB_resethaltreqPortCB
  | CB_interruptPortCB
  | CB_interruptIDPortCB.

(** A port: its description for the simulator ([portName], [portType],
    [netChangeCB], [handle], [portDescription] are the members [name],
    [type], [netChangeCB], [handle] and [description] of [desc]), and the
    [userData] of its interrupt information structure.  [handle] tells
    whether the port reports its handle in [DMPortHandle]. *)
Record riscvNetPort : Type := {
  portName : string;
  portType : vmiNetPortType;
  netChangeCB : option vmiNetChangeFn;
  handle : bool;
  portDescription : string;
  userData : Z
}.

(** [newNetPort]: allocate a new port and append it to the tail of the
    list. *)
Definition newNetPort (tail : list riscvNetPort) (name_ : string)
  (type : vmiNetPortType) (portCB : option vmiNetChangeFn) (desc : string)
  (code_ : Z) (handle_ : bool) : list riscvNetPort :=
  tail ++ [ {| portName := name_; portType := type; netChangeCB := portCB;
               handle := handle_; portDescription := desc;
               userData := code_ |} ].

(** [BITS_TO_DWORDS], on an [Uns32]. *)
Definition BITS_TO_DWORDS (_B : Z) : Z := to_Uns32 (_B + 63) / 64.

(** Modelled from the spec: the enumerator that follows the last privilege
    mode; it sizes the external-interrupt-ID latches, one per mode. *)
Definition RISCV_MODE_LAST : Z := 4.

(* ------------------------------------------------------------------------- *)
(** ** The hart with its nets *)

(** Modelled from the spec: the latched control inputs, declared in a header
    that is not part of this file; each is a [Bool]. *)
Record riscvNetValue : Type := {
  reset : bool;
  nmi : bool;
  haltreq : bool;
  resethaltreq : bool;
  resethaltreqS : bool
}.

Definition set_nmi (v : bool) (nv : riscvNetValue) : riscvNetValue :=
  {| reset := reset nv; nmi := v; haltreq := haltreq nv;
     resethaltreq := resethaltreq nv; resethaltreqS := resethaltreqS nv |}.

Definition set_haltreq (v : bool) (nv : riscvNetValue) : riscvNetValue :=
  {| reset := reset nv; nmi := nmi nv; haltreq := v;
     resethaltreq := resethaltreq nv; resethaltreqS := resethaltreqS nv |}.

Definition set_resethaltreq (v : bool) (nv : riscvNetValue)
  : riscvNetValue :=
  {| reset := reset nv; nmi := nmi nv; haltreq := haltreq nv;
     resethaltreq := v; resethaltreqS := resethaltreqS nv |}.

Definition set_resethaltreqS (v : bool) (nv : riscvNetValue)
  : riscvNetValue :=
  {| reset := reset nv; nmi := nmi nv; haltreq := haltreq nv;
     resethaltreq := resethaltreq nv; resethaltreqS := v |}.

(** The members of the hart structure that the operations above do not
    use, around the part they do ([hart]): of the configuration, the number
    of local interrupts, the mask of interrupts that are explicitly absent,
    the NMI address and whether external-interrupt-ID nets are required;
    whether [vmirtGetSMPChild] reports a child (the hart is a container);
    the masks of implemented exceptions and interrupts; the cached list of
    all exceptions ([exceptionsAll] is the member [exceptions], [None] when
    it is null) and its length; the pending-interrupt double words of the
    input nets and their number; the software-pending bits; the latched
    control inputs; the save/restore flag; the port list. *)
Record riscvNet : Type := {
  hart : riscv;
  local_int_num : Z;
  unimp_int_mask : Z;
  nmi_address : Z;
  external_int_id : bool;
  SMPChild : bool;
  exceptionMask : Z;
  interruptMask : Z;
  exceptionsAll : option (list vmiExceptionInfo);
  exceptionNum : Z;
  ip : list Z;
  ipDWords : Z;
  swip : Z;
  netValue : riscvNetValue;
  inSaveRestore : bool;
  netPorts : list riscvNetPort
}.

Definition set_hart (v : riscv) (n : riscvNet) : riscvNet :=
  Build_riscvNet
    v (local_int_num n) (unimp_int_mask n) (nmi_address n)
    (external_int_id n) (SMPChild n) (exceptionMask n) (interruptMask n)
    (exceptionsAll n) (exceptionNum n) (ip n) (ipDWords n) (swip n)
    (netValue n) (inSaveRestore n) (netPorts n).

Definition set_exceptionMask (v : Z) (n : riscvNet) : riscvNet :=
  Build_riscvNet
    (hart n) (local_int_num n) (unimp_int_mask n) (nmi_address n)
    (external_int_id n) (SMPChild n) v (interruptMask n)
    (exceptionsAll n) (exceptionNum n) (ip n) (ipDWords n) (swip n)
    (netValue n) (inSaveRestore n) (netPorts n).

Definition set_interruptMask (v : Z) (n : riscvNet) : riscvNet :=
  Build_riscvNet
    (hart n) (local_int_num n) (unimp_int_mask n) (nmi_address n)
    (external_int_id n) (SMPChild n) (exceptionMask n) v
    (exceptionsAll n) (exceptionNum n) (ip n) (ipDWords n) (swip n)
    (netValue n) (inSaveRestore n) (netPorts n).

Definition set_exceptionsAll (v : option (list vmiExceptionInfo))
  (n : riscvNet) : riscvNet :=
  Build_riscvNet
    (hart n) (local_int_num n) (unimp_int_mask n) (nmi_address n)
    (external_int_id n) (SMPChild n) (exceptionMask n) (interruptMask n)
    v (exceptionNum n) (ip n) (ipDWords n) (swip n)
    (netValue n) (inSaveRestore n) (netPorts n).

Definition set_exceptionNum (v : Z) (n : riscvNet) : riscvNet :=
  Build_riscvNet
    (hart n) (local_int_num n) (unimp_int_mask n) (nmi_address n)
    (external_int_id n) (SMPChild n) (exceptionMask n) (interruptMask n)
    (exceptionsAll n) v (ip n) (ipDWords n) (swip n)
    (netValue n) (inSaveRestore n) (netPorts n).

Definition set_ip (v : list Z) (n : riscvNet) : riscvNet :=
  Build_riscvNet
    (hart n) (local_int_num n) (unimp_int_mask n) (nmi_address n)
    (external_int_id n) (SMPChild n) (exceptionMask n) (interruptMask n)
    (exceptionsAll n) (exceptionNum n) v (ipDWords n) (swip n)
    (netValue n) (inSaveRestore n) (netPorts n).

Definition set_ipDWords (v : Z) (n : riscvNet) : riscvNet :=
  Build_riscvNet
    (hart n) (local_int_num n) (unimp_int_mask n) (nmi_address n)
    (external_int_id n) (SMPChild n) (exceptionMask n) (interruptMask n)
    (exceptionsAll n) (exceptionNum n) (ip n) v (swip n)
    (netValue n) (inSaveRestore n) (netPorts n).

Definition set_netValue (v : riscvNetValue) (n : riscvNet) : riscvNet :=
  Build_riscvNet
    (hart n) (local_int_num n) (unimp_int_mask n) (nmi_address n)
    (external_int_id n) (SMPChild n) (exceptionMask n) (interruptMask n)
    (exceptionsAll n) (exceptionNum n) (ip n) (ipDWords n) (swip n)
    v (inSaveRestore n) (netPorts n).

Definition set_netPorts (v : list riscvNetPort) (n : riscvNet) : riscvNet :=
  Build_riscvNet
    (hart n) (local_int_num n) (unimp_int_mask n) (nmi_address n)
    (external_int_id n) (SMPChild n) (exceptionMask n) (interruptMask n)
    (exceptionsAll n) (exceptionNum n) (ip n) (ipDWords n) (swip n)
    (netValue n) (inSaveRestore n) v.

(** How an operation with a sanity check ends: normally; with the check
    failed ([VMI_ASSERT] aborts); or with an access beyond the end of an
    array, which C leaves undefined. *)
Inductive outcome (A : Type) : Type :=
  | Done (a : A)
  | AssertFailed
  | OutOfBounds.

Arguments Done {A} a.
Arguments AssertFailed {A}.
Arguments OutOfBounds {A}.

(** The list with its element at an index replaced. *)
Fixpoint updateAt {A : Type} (l : list A) (i : nat) (v : A) : list A :=
  match l, i with
  | [], _ => []
  | _ :: t, O => v :: t
  | h :: t, S i => h :: updateAt t i v
  end.

(** The numbers [0], ..., [n - 1], as a loop counts them. *)
Definition upto (n : Z) : list Z := map Z.of_nat (seq 0 (Z.to_nat n)).

(* ------------------------------------------------------------------------- *)
(** ** Implemented exceptions and interrupts *)

(** [getIntNum]: the total number of interrupts, including 0 to 15. *)
Definition getIntNum (n : riscvNet) : Z := to_Uns32 (local_int_num n + 16).

(** [getLocalIntNum]: the number of local interrupts; a container has
    none. *)
Definition getLocalIntNum (n : riscvNet) : Z :=
  let isContainer := SMPChild n in
  to_Uns32 (if isContainer then 0 else local_int_num n).

(** [riscvGetLocalIntMask]: the mask of implemented local interrupts. *)
Definition riscvGetLocalIntMask (n : riscvNet) : Z :=
  let localIntNum := getLocalIntNum n in
  let localShift := if localIntNum <? 48 then localIntNum else 48 in
  let local_int_mask := to_Uns64 (Z.shiftl 1 localShift - 1) in
  to_Uns64 (Z.shiftl local_int_mask riscv_E_Local).

Section Nets.

(** The value of [1ULL<<n] for a count that is negative or not below 64,
    which C leaves undefined. *)
Variable shl64_undef : Z -> Z.

Definition shl_1ULL (n : Z) : Z :=
  if (0 <=? n) && (n <? 64)
  then Z.shiftl 1 n
  else to_Uns64 (shl64_undef n).

(** [hasException]: does the processor implement the exception or
    interrupt? *)
Definition hasException (n : riscvNet) (code_ : Z) : bool :=
  if code_ <? riscv_E_Interrupt
  then to_Bool (Z.land (exceptionMask n) (shl_1ULL code_))
  else to_Bool
         (Z.land (interruptMask n) (shl_1ULL (code_ - riscv_E_Interrupt))).

(** The body of the loop of [riscvSetExceptionMask] over the table. *)
Definition addExceptionMask (arch_ : Z) (masks : Z * Z)
  (thisDesc : riscvExceptionDesc) : Z * Z :=
  let '(exceptionMask_, interruptMask_) := masks in
  let code_ := code (vmiInfo thisDesc) in
  if negb (Z.land arch_ (archDesc thisDesc) =? archDesc thisDesc)
  then (exceptionMask_, interruptMask_)
  else if code_ <? riscv_E_Interrupt
  then (Z.lor exceptionMask_ (shl_1ULL code_), interruptMask_)
  else (exceptionMask_,
        Z.lor interruptMask_ (shl_1ULL (code_ - riscv_E_Interrupt))).

(** [riscvSetExceptionMask]: initialize the masks of implemented exceptions
    and interrupts, the latter including the local interrupts and excluding
    the interrupts that are explicitly absent. *)
Definition riscvSetExceptionMask (n : riscvNet) : riscvNet :=
  let arch_ := arch (configInfo (hart n)) in
  let '(exceptionMask_, interruptMask_) :=
    fold_left (addExceptionMask arch_) exceptions (0, 0) in
  let n := set_exceptionMask exceptionMask_ n in
  set_interruptMask
    (Z.land (Z.lor interruptMask_ (riscvGetLocalIntMask n))
       (to_Uns64 (Z.lnot (unimp_int_mask n))))
    n.

(* ----------------------------------------------------------------------- *)
(** *** The list of all exceptions *)

(** The member [firstException] of a record of the extension callback
    list, when it is set: given the hart and the client data, the
    exceptions of the derived model (a null list is the empty one). *)
Variable firstException :
  riscvExtCB -> option (riscvNet -> Z -> list vmiExceptionInfo).

(** The exceptions and standard interrupts of the base model that the hart
    implements, in table order. *)
Definition baseExceptions (n : riscvNet) : list vmiExceptionInfo :=
  map vmiInfo
    (filter (fun d => hasException n (code (vmiInfo d))) exceptions).

(** The exceptions of the derived models, in callback order. *)
Definition derivedExceptions (n : riscvNet) : list vmiExceptionInfo :=
  flat_map
    (fun extCB =>
       match firstException extCB with
       | Some f => f n (clientData extCB)
       | None => []
       end)
    (extCBs (hart n)).

(** The entry of the local interrupt [i]. *)
Definition localException (i : Z) : vmiExceptionInfo :=
  let code_ := riscv_E_LocalInterrupt + i in
  {| name := ("LocalInterrupt" ++ print_u i)%string;
     code := code_;
     description :=
       match getExceptionDesc code_ with
       | Some d => d
       | None => EmptyString
       end |}.

(** The three counting loops of [getExceptions]: the number of entries to
    allocate, an [Uns32]. *)
Definition countExceptions (n : riscvNet) : Z :=
  let numLocal := getLocalIntNum n in
  let numExcept :=
    fold_left
      (fun numExcept d =>
         if hasException n (code (vmiInfo d))
         then to_Uns32 (numExcept + 1) else numExcept)
      exceptions 0 in
  let numExcept :=
    fold_left
      (fun numExcept extCB =>
         match firstException extCB with
         | Some f =>
             fold_left (fun numExcept _ => to_Uns32 (numExcept + 1))
               (f n (clientData extCB)) numExcept
         | None => numExcept
         end)
      (extCBs (hart n)) numExcept in
  to_Uns32 (numExcept + numLocal).

(** The three filling loops of [getExceptions]: the entries written, in
    order. *)
Definition fillExceptions (n : riscvNet) : list vmiExceptionInfo :=
  baseExceptions n ++ derivedExceptions n
    ++ map localException (upto (getLocalIntNum n)).

(** [getExceptions]: all defined exceptions, including those from
    intercepts; the list is built on the first call and kept. *)
Definition getExceptions (n : riscvNet) : riscvNet * list vmiExceptionInfo :=
  match exceptionsAll n with
  | Some all => (n, all)
  | None =>
      let n := set_exceptionNum (countExceptions n) n in
      let all := fillExceptions n in
      (set_exceptionsAll (Some all) n, all)
  end.

(** [riscvGetException]: the first entry with the code of the
    last-activated exception, if there is one. *)
Definition riscvGetException (n : riscvNet)
  : riscvNet * option vmiExceptionInfo :=
  let '(n, this) := getExceptions n in
  (n, find (fun e => code e =? exception (hart n)) this).

(** [riscvExceptFree]: free the exception state.  The result has the
    strings handed to [free], in order. *)
Definition riscvExceptFree (n : riscvNet) : riscvNet * list string :=
  match exceptionsAll n with
  | Some all =>
      let numLocal := getLocalIntNum n in
      let numNotLocal := to_Uns32 (exceptionNum n - numLocal) in
      let local := skipn (Z.to_nat numNotLocal) all in
      (set_exceptionsAll None n,
       flat_map (fun e => [name e; description e])
         (firstn (Z.to_nat numLocal) local))
  | None => (n, [])
  end.

(* ----------------------------------------------------------------------- *)
(** *** Port creation *)

(** Port names of the external interrupt IDs, for each mode. *)
Definition externalInterruptIDName (offset : Z) : string :=
  if offset =? mode_code RISCV_MODE_USER then "UExternalInterruptID"
  else if offset =? mode_code RISCV_MODE_SUPERVISOR
  then "SExternalInterruptID"
  else if offset =? mode_code RISCV_MODE_HYPERVISOR
  then "HExternalInterruptID"
  else "MExternalInterruptID".

(** The body of the loop of [riscvNewNetPorts] over the table: a port for
    each implemented standard interrupt, followed by the port of its
    interrupt ID when it is an external interrupt and ID nets are
    required. *)
Definition addInterruptPorts (n : riscvNet) (tail : list riscvNetPort)
  (this : riscvExceptionDesc) : list riscvNetPort :=
  let info := vmiInfo this in
  let code_ := code info in
  if (code_ >=? riscv_E_Interrupt) && hasException n code_ then
    let tail :=
      newNetPort tail (name info) vmi_NP_INPUT (Some CB_interruptPortCB)
        (description info) (to_Uns32 (code_ - riscv_E_Interrupt)) false in
    if negb (external_int_id n) then tail
    else if negb (isExternalInterrupt code_) then tail
    else
      let offset := to_Uns32 (code_ - riscv_E_ExternalInterrupt) in
      newNetPort tail (externalInterruptIDName offset) vmi_NP_INPUT
        (Some CB_interruptIDPortCB) "External Interrupt ID" offset false
  else tail.

(** The body of the loop over the local interrupts. *)
Definition addLocalPort (tail : list riscvNetPort) (i : Z)
  : list riscvNetPort :=
  let code_ := riscv_E_LocalInterrupt + i in
  newNetPort tail ("LocalInterrupt" ++ print_u i)%string vmi_NP_INPUT
    (Some CB_interruptPortCB) ("Local Interrupt " ++ print_u i)%string
    (to_Uns32 (code_ - riscv_E_Interrupt)) false.

(** [riscvNewNetPorts]: allocate the ports of this variant, and the
    pending-interrupt double words, all zero. *)
Definition riscvNewNetPorts (n : riscvNet) : riscvNet :=
  let n := set_ipDWords (BITS_TO_DWORDS (getIntNum n)) n in
  let n := set_ip (repeat 0 (Z.to_nat (ipDWords n))) n in
  let tail := [] in
  let tail :=
    newNetPort tail "reset" vmi_NP_INPUT (Some CB_resetPortCB) "Reset" 0
      false in
  let tail :=
    newNetPort tail "nmi" vmi_NP_INPUT (Some CB_nmiPortCB) "NMI" 0 false in
  let tail := fold_left (addInterruptPorts n) exceptions tail in
  let localIntNum := getLocalIntNum n in
  let tail := fold_left addLocalPort (upto localIntNum) tail in
  let tail :=
    if negb (riscvDMMode_eqb (debug_mode (configInfo (hart n))) RVDM_NONE)
    then
      let tail :=
        newNetPort tail "DM" vmi_NP_OUTPUT None "Debug state indication" 0
          true in
      let tail :=
        newNetPort tail "haltreq" vmi_NP_INPUT (Some CB_haltreqPortCB)
          "haltreq (Debug halt request)" 0 false in
      newNetPort tail "resethaltreq" vmi_NP_INPUT
        (Some CB_resethaltreqPortCB)
        "resethaltreq (Debug halt request after reset)" 0 false
    else tail in
  set_netPorts tail n.

(** [riscvNetPortSpecs]: the port after [prev], the first one when [prev]
    is null; a port is named by its place in the list. *)
Definition riscvNetPortSpecs (n : riscvNet) (prev : option nat)
  : option (nat * riscvNetPort) :=
  let this := match prev with None => O | Some p => S p end in
  match nth_error (netPorts n) this with
  | Some port => Some (this, port)
  | None => None
  end.

(* ----------------------------------------------------------------------- *)
(** *** Pending interrupts and the interrupt ports *)

(** [riscvUpdatePending]: update the interrupt state after a change of
    some pending state, from an external interrupt source or from the
    software pending register. *)
Definition riscvUpdatePending (n : riscvNet) : outcome riscvNet :=
  let oldValue := RD_CSR (hart n) mip in
  match nth_error (ip n) 0 with
  | None => OutOfBounds
  | Some ip0 =>
      let newValue := Z.lor ip0 (swip n) in
      if negb (oldValue =? newValue) then
        let r := WR_CSR (hart n) mip newValue in
        Done (set_hart (riscvTestInterrupt r) n)
      else Done n
  end.

(** [interruptPortCB]: a generic interrupt signal; [userData_] is the
    index the port was created with, and the new value of a net is an
    [Uns64]. *)
Definition interruptPortCB (n : riscvNet) (userData_ newValue : Z)
  : outcome riscvNet :=
  let index := to_Uns32 userData_ in
  let offset := index / 64 in
  let mask := Z.shiftl 1 (Z.land index 63) in
  let maxNum := getIntNum n in
  if negb (index <? maxNum) then AssertFailed
  else
    match nth_error (ip n) (Z.to_nat offset) with
    | None => OutOfBounds
    | Some w =>
        let w :=
          if to_Bool newValue then Z.lor w mask
          else Z.land w (to_Uns64 (Z.lnot mask)) in
        riscvUpdatePending (set_ip (updateAt (ip n) (Z.to_nat offset) w) n)
    end.

(** [interruptIDPortCB]: a generic interrupt ID signal; the latch is an
    [Uns32]. *)
Definition interruptIDPortCB (n : riscvNet) (userData_ newValue : Z)
  : outcome riscvNet :=
  let offset := to_Uns32 userData_ in
  if negb (offset <? RISCV_MODE_LAST) then AssertFailed
  else if (Z.to_nat offset <? List.length (extInt (hart n)))%nat then
    Done (set_hart
            (set_extInt
               (updateAt (extInt (hart n)) (Z.to_nat offset)
                  (to_Uns32 newValue))
               (hart n)) n)
  else OutOfBounds.

(** [haltreqPortCB]: the haltreq signal, edge triggered. *)
Definition haltreqPortCB (n : riscvNet) (newValue : Z) : riscvNet :=
  let oldValue := haltreq (netValue n) in
  let n :=
    if negb (inDebugMode (hart n)) && posedge oldValue (to_Bool newValue)
    then set_hart (emit EvDoSynchronousInterrupt (hart n)) n
    else n in
  set_netValue (set_haltreq (to_Bool newValue) (netValue n)) n.

(** [resethaltreqPortCB]: the resethaltreq signal, sampled at reset. *)
Definition resethaltreqPortCB (n : riscvNet) (newValue : Z) : riscvNet :=
  set_netValue (set_resethaltreq (to_Bool newValue) (netValue n)) n.

(** The halt reasons cleared when an NMI restarts the hart; the enumerator
    is declared in a header that is not part of this file. *)
Variable RVD_RESTART_NMI : Z.

(** [doNMI]: restart the hart, switch to Machine mode, clear [mcause] (its
    code and its interrupt flag), set [mepc] and jump to the NMI
    address. *)
Definition doNMI (n : riscvNet) : riscvNet :=
  let r := hart n in
  let r := restartProcessor r RVD_RESTART_NMI in
  let r := riscvSetMode r RISCV_MODE_MACHINE in
  let r := WR_CSR_FIELD r (xcause_ExceptionCode xM) 0 in
  let r := WR_CSR_FIELD r (xcause_Interrupt xM) 0 in
  let r := WR_CSR r (xepc xM) (getEPC r) in
  let r := set_exception 0 r in
  let r := set_PC (nmi_address n) r in
  set_hart r n.

(** [nmiPortCB]: the NMI signal. *)
Definition nmiPortCB (n : riscvNet) (newValue : Z) : riscvNet :=
  let oldValue := nmi (netValue n) in
  let n :=
    if negb (inDebugMode (hart n))
       && negedge (of_Bool oldValue) (to_Uns32 newValue)
    then doNMI n else n in
  let n := set_hart (WR_CSR_FIELD (hart n) dcsr_nmip newValue) n in
  set_netValue (set_nmi (to_Bool newValue) (netValue n)) n.

(* ----------------------------------------------------------------------- *)
(** *** Debug mode requests and the fetch hook *)

Variable shl_undef : Z -> Z.
Variable riscvInhibitInstret : riscv -> bool.
Variable riscvCountState : Type.
Variable riscvPreInhibit : riscv -> riscvCountState.
Variable riscvPostInhibit : riscv -> riscvCountState -> bool -> Z * Z.

(** [riscvSetDM]: enter or leave Debug mode. *)
Definition riscvSetDM (n : riscvNet) (DM_ : bool) : riscvNet :=
  let oldDM := inDebugMode (hart n) in
  if Bool.eqb oldDM DM_ || inSaveRestore n then n
  else if DM_ then
    set_hart
      (enterDM riscvCountState riscvPreInhibit riscvPostInhibit (hart n)
         DMC_HALTREQ) n
  else
    set_hart
      (leaveDM riscvCountState riscvPreInhibit riscvPostInhibit (hart n)) n.

(** [riscvSetDMStall]: update the Debug mode stall indication. *)
Definition riscvSetDMStall (r : riscv) (DMStall_ : bool) : riscv :=
  updateDMStall r DMStall_.

(** [riscvStepExcept]: the instruction step breakpoint callback. *)
Definition riscvStepExcept (r : riscv) : riscv :=
  if negb (inDebugMode r) && to_Bool (RD_CSR_FIELD r dcsr_step)
  then enterDM riscvCountState riscvPreInhibit riscvPostInhibit r DMC_STEP
  else r.

(** What the fetch hook tells the simulator. *)
Inductive vmiFetchAction : Type :=
  | VMI_FETCH_NONE
  | VMI_FETCH_EXCEPTION_PENDING
  | VMI_FETCH_EXCEPTION_COMPLETE.

Inductive memPriv : Type := MEM_PRIV_R | MEM_PRIV_W | MEM_PRIV_X.
Inductive memAccessAttrs : Type := MEM_AA_FALSE | MEM_AA_TRUE.

(** The memory side of the simulator: its state, the domain handed to the
    fetch hook, whether an address is executable, the virtual-memory miss
    handler (which may map memory or take an exception of its own, and
    tells whether it did the latter), and the size of the instruction at
    an address. *)
Variable memState : Type.
Variable memDomain : Type.
Variable vmirtIsExecutable : memState -> riscvNet -> Z -> bool.
Variable riscvVMMiss :
  riscvNet -> memState -> memDomain -> memPriv -> Z -> Z -> memAccessAttrs
  -> riscvNet * memState * bool.
Variable riscvGetInstructionSize : memState -> riscvNet -> Z -> Z.

(** [validateFetchAddressInt]: validate an instruction fetch from the given
    address. *)
Definition validateFetchAddressInt (n : riscvNet) (m : memState)
  (domain : memDomain) (thisPC : Z) (complete : bool)
  : riscvNet * memState * bool :=
  let attrs := if complete then MEM_AA_TRUE else MEM_AA_FALSE in
  if vmirtIsExecutable m n thisPC then (n, m, true)
  else
    let '(n, m, miss) :=
      riscvVMMiss n m domain MEM_PRIV_X thisPC 2 attrs in
    if miss then (n, m, false)
    else if negb (vmirtIsExecutable m n thisPC) then
      let n :=
        if complete then
          set_hart
            (riscvTakeException shl_undef riscvInhibitInstret
               riscvCountState riscvPreInhibit riscvPostInhibit (hart n)
               riscv_E_InstructionAccessFault thisPC) n
        else n in
      (n, m, false)
    else (n, m, true).

(** [validateFetchAddress]: validate that the given address is a mapped
    fetch address, for both halves of an instruction longer than two
    bytes. *)
Definition validateFetchAddress (n : riscvNet) (m : memState)
  (domain : memDomain) (thisPC : Z) (complete : bool)
  : riscvNet * memState * bool :=
  let '(n, m, ok) := validateFetchAddressInt n m domain thisPC complete in
  if negb ok then (n, m, false)
  else if riscvGetInstructionSize m n thisPC <=? 2 then (n, m, true)
  else
    let '(n, m, ok) :=
      validateFetchAddressInt n m domain (to_Uns64 (thisPC + 2)) complete in
    if negb ok then (n, m, false) else (n, m, true).

(** [riscvIFetchExcept]: called by the simulator when it fetches from an
    instruction address; the model may take an exception instead. *)
Definition riscvIFetchExcept (n : riscvNet) (m : memState)
  (domain : memDomain) (address : Z) (complete : bool)
  : outcome (riscvNet * memState * vmiFetchAction) :=
  let thisPC := address in
  let intMask := getPendingAndEnabledInterrupts (hart n) in
  let result : outcome (riscvNet * memState * bool) :=
    if resethaltreqS (netValue n) then
      if complete then
        let n := set_netValue (set_resethaltreqS false (netValue n)) n in
        Done
          (set_hart
             (enterDM riscvCountState riscvPreInhibit riscvPostInhibit
                (hart n) DMC_RESETHALTREQ) n, m, false)
      else Done (n, m, false)
    else if haltreq (netValue n) && negb (inDebugMode (hart n)) then
      if complete then
        Done
          (set_hart
             (enterDM riscvCountState riscvPreInhibit riscvPostInhibit
                (hart n) DMC_HALTREQ) n, m, false)
      else Done (n, m, false)
    else if to_Bool intMask then
      if complete then
        match
          doInterrupt shl_undef riscvInhibitInstret riscvCountState
            riscvPreInhibit riscvPostInhibit (hart n) intMask
        with
        | Some r => Done (set_hart r n, m, false)
        | None => AssertFailed
        end
      else Done (n, m, false)
    else Done (validateFetchAddress n m domain thisPC complete) in
  match result with
  | Done (n, m, fetchOK) =>
      Done (n, m,
            if fetchOK then VMI_FETCH_NONE
            else if complete then VMI_FETCH_EXCEPTION_COMPLETE
            else VMI_FETCH_EXCEPTION_PENDING)
  | AssertFailed => AssertFailed
  | OutOfBounds => OutOfBounds
  end.

End Nets.

(* ------------------------------------------------------------------------- *)
(** ** The trap return address in the spec's words *)



(* ------------------------------------------------------------------------- *)
(** ** Sample harts *)

(** A 64-bit hart with User and Supervisor modes and compressed
    instructions, running in Supervisor mode with machine interrupts
    enabled; software, timer and external supervisor interrupts are
    delegated to Supervisor mode, and the machine trap vector is in vectored
    mode. *)
Definition sample_config : riscvConfig :=
  {| arch := Z.lor ISA_C (Z.lor ISA_S ISA_U);
     xret_preserves_lr := false;
     tval_ii_code := false;
     debug_mode := RVDM_HALT |}.

Definition sample_csr (f : csrField) : Z :=
  match f with
  | mstatus_xIE xM => 1
  | mstatus_xIE xS => 1
  | xtvec_BASE xM => 0x2000
  | xtvec_MODE xM => 1
  | xtvec_BASE xS => 0x3000
  | xepc xM => 0x1000
  | mideleg => 0x222
  | mie => 0xaaa
  | dcsr_prv => 1
  | dpc => 0x4000
  | _ => 0
  end.

Definition sample_hart : riscv :=
  {| configInfo := sample_config;
     currentArch := Z.lor ISA_C (Z.lor ISA_S ISA_U);
     privVersion := 2;
     XLEN := 64;
     verbose := false;
     csrMask := fun f => match f with vstart => 0x7f | _ => -2 end;
     xIMode := fun _ => riscv_int_Direct;
     extInt := [0; 0; 0; 0];
     extCBs := [{| trapNotifier := true; ERETNotifier := true;
                   clientData := 7 |}];
     AFErrorIn := 0;
     jumpBase := 0;
     dsOffset := 0;
     mode := RISCV_MODE_SUPERVISOR;
     DM := false;
     DMStall := false;
     disable := 0;
     PC := 0x80000100;
     exception := 0;
     exclusiveTag := 0x80001000;
     baseCycles := 0;
     baseInstructions := 10;
     AFErrorOut := 0;
     vFirstFault := false;
     csr := sample_csr;
     events := [] |}.

(** The same hart halted in Debug mode. *)
Definition sample_debug_hart : riscv :=
  set_DMStall true (set_DM true sample_hart).


(** The same hart inside a fault-only-first vector load at element 3, once
    with seven writable bits in [vstart], once with none. *)
Definition sample_ff_hart : riscv :=
  set_vFirstFault true (WR_CSR sample_hart vstart 3).

Definition sample_ff_vstart0_hart : riscv :=
  Build_riscv
    (configInfo sample_ff_hart) (currentArch sample_ff_hart)
    (privVersion sample_ff_hart) (XLEN sample_ff_hart)
    (verbose sample_ff_hart)
    (fun f => match f with vstart => 0 | _ => -2 end)
    (xIMode sample_ff_hart) (extInt sample_ff_hart) (extCBs sample_ff_hart)
    (AFErrorIn sample_ff_hart) (jumpBase sample_ff_hart)
    (dsOffset sample_ff_hart) (mode sample_ff_hart) (DM sample_ff_hart)
    (DMStall sample_ff_hart) (disable sample_ff_hart) (PC sample_ff_hart)
    (exception sample_ff_hart) (exclusiveTag sample_ff_hart)
    (baseCycles sample_ff_hart) (baseInstructions sample_ff_hart)
    (AFErrorOut sample_ff_hart) (vFirstFault sample_ff_hart)
    (csr sample_ff_hart) (events sample_ff_hart).

(** Collaborators for the sample harts: an out-of-range shift that yields
    zero, counters that are never inhibited, an instruction fetch that
    yields zero, and a count state that keeps the counter bases. *)
Definition sample_shl_undef (ecode : Z) : Z := 0.
Definition sample_inhibit (r : riscv) : bool := false.
Definition sample_instruction (r : riscv) (pc : Z) : Z := 0.
Definition sample_preInhibit (r : riscv) : unit := tt.
Definition sample_postInhibit (r : riscv) (state : unit) (pre : bool)
  : Z * Z := (baseCycles r, baseInstructions r).

(** The operations with the sample collaborators. *)
Definition sample_takeException : riscv -> Z -> Z -> riscv :=
  riscvTakeException sample_shl_undef sample_inhibit unit sample_preInhibit
    sample_postInhibit.

Definition sample_takeMemoryException : riscv -> Z -> Z -> riscv :=
  riscvTakeMemoryException sample_shl_undef sample_inhibit unit
    sample_preInhibit sample_postInhibit.

Definition sample_DRET : riscv -> riscv :=
  riscvDRET sample_shl_undef sample_inhibit sample_instruction unit
    sample_preInhibit sample_postInhibit.

Definition sample_doInterrupt : riscv -> Z -> option riscv :=
  doInterrupt sample_shl_undef sample_inhibit unit sample_preInhibit
    sample_postInhibit.
(* ------------------------------------------------------------------------- *)
(** ** Facts on modes and on the bit test *)

Lemma mode_code_inj : forall a b, mode_code a = mode_code b -> a = b.
Proof. intros [] []; simpl; intros H; try reflexivity; discriminate H. Qed.





(* ------------------------------------------------------------------------- *)
(** ** Facts on the CSR file and on the log *)

Lemma xmode_eqb_eq : forall a b, xmode_eqb a b = true <-> a = b.
Proof. intros [] []; simpl; split; intros H; congruence. Qed.

Lemma csrField_eqb_refl : forall f, csrField_eqb f f = true.
Proof. intros []; simpl; try reflexivity; destruct x; reflexivity. Qed.

Lemma csrField_eqb_eq : forall f g, csrField_eqb f g = true <-> f = g.
Proof.
  intros f g; split.
  - destruct f, g; simpl; intros H; try discriminate H; try reflexivity;
      apply xmode_eqb_eq in H; subst; reflexivity.
  - intros ->. apply csrField_eqb_refl.
Qed.

Lemma csrField_eqb_neq : forall f g, f <> g -> csrField_eqb f g = false.
Proof.
  intros f g H. destruct (csrField_eqb f g) eqn:E; [|reflexivity].
  apply csrField_eqb_eq in E. contradiction.
Qed.

Lemma keepBits_idem : forall n z, keepBits n (keepBits n z) = keepBits n z.
Proof.
  intros n z. unfold keepBits.
  destruct (Z.eq_dec (2 ^ n) 0) as [E|E].
  - rewrite E. rewrite !Z.mod_0_r. reflexivity.
  - apply Z.mod_mod. exact E.
Qed.

Lemma keepBits_small : forall n z, 0 <= z < 2 ^ n -> keepBits n z = z.
Proof. intros n z H. unfold keepBits. apply Z.mod_small. exact H. Qed.

Lemma RD_WR_same : forall r f v,
  RD_CSR_FIELD (WR_CSR_FIELD r f v) f = keepBits (fieldBits (XLEN r) f) v.
Proof.
  intros r f v. unfold RD_CSR_FIELD, WR_CSR_FIELD. simpl.
  rewrite csrField_eqb_refl. apply keepBits_idem.
Qed.

Lemma RD_WR_other : forall r f g v,
  g <> f -> RD_CSR_FIELD (WR_CSR_FIELD r f v) g = RD_CSR_FIELD r g.
Proof.
  intros r f g v H. unfold RD_CSR_FIELD, WR_CSR_FIELD. simpl.
  rewrite (csrField_eqb_neq g f H). reflexivity.
Qed.

Lemma RD_CSR_FIELD_range : forall r f,
  0 < fieldBits (XLEN r) f ->
  0 <= RD_CSR_FIELD r f < 2 ^ fieldBits (XLEN r) f.
Proof.
  intros r f H. unfold RD_CSR_FIELD, keepBits.
  apply Z.mod_pos_bound. apply Z.pow_pos_nonneg; lia.
Qed.

(** A loop over the callback list only appends to the log. *)
Lemma notify_fold_frame :
  forall (f : riscvExtCB -> option event) (l : list riscvExtCB) (r : riscv),
  exists evs,
    fold_left
      (fun r cb => match f cb with Some e => emit e r | None => r end) l r
    = set_events (events r ++ evs) r.
Proof.
  intros f l. induction l as [|cb l IH]; intros r.
  - exists []. simpl. rewrite app_nil_r. destruct r; reflexivity.
  - simpl. destruct (f cb) as [e|].
    + destruct (IH (emit e r)) as [evs Hevs]. exists (e :: evs).
      rewrite Hevs. unfold emit. simpl. rewrite <- app_assoc. reflexivity.
    + apply IH.
Qed.

Lemma notifyTrapEntry_frame : forall r m,
  exists evs, notifyTrapEntry r m = set_events (events r ++ evs) r.
Proof.
  intros r m. unfold notifyTrapEntry.
  destruct (notify_fold_frame
              (fun cb => if trapNotifier cb
                         then Some (EvTrapNotifier (clientData cb) m)
                         else None) (extCBs r) r) as [evs H].
  exists evs. rewrite <- H. clear H.
  generalize r at 2 4. induction (extCBs r) as [|cb l IH]; intros r0.
  - reflexivity.
  - simpl. destruct (trapNotifier cb); apply IH.
Qed.

Lemma notifyERETDerived_frame : forall r m,
  exists evs, notifyERETDerived r m = set_events (events r ++ evs) r.
Proof.
  intros r m. unfold notifyERETDerived.
  destruct (notify_fold_frame
              (fun cb => if ERETNotifier cb
                         then Some (EvERETNotifier (clientData cb) m)
                         else None) (extCBs r) r) as [evs H].
  exists evs. rewrite <- H. clear H.
  generalize r at 2 4. induction (extCBs r) as [|cb l IH]; intros r0.
  - reflexivity.
  - simpl. destruct (ERETNotifier cb); apply IH.
Qed.

(** [riscvTestInterrupt] changes the halt reasons and the log only. *)
Lemma riscvTestInterrupt_frame : forall r,
  exists d evs,
    riscvTestInterrupt r = set_events (events r ++ evs) (set_disable d r).
Proof.
  intros r. unfold riscvTestInterrupt, restartProcessor, emit.
  destruct (to_Bool (getPendingInterrupts r)); simpl.
  - destruct (negb (to_Bool (Z.land (disable r) (Z.lnot RVD_RESTART_WFI))));
      destruct (to_Bool (getPendingAndEnabledInterrupts r)); simpl.
    + exists (Z.land (disable r) (Z.lnot RVD_RESTART_WFI)),
        [EvRestartNext; EvDoSynchronousInterrupt].
      rewrite <- app_assoc. reflexivity.
    + exists (Z.land (disable r) (Z.lnot RVD_RESTART_WFI)), [EvRestartNext].
      reflexivity.
    + exists (Z.land (disable r) (Z.lnot RVD_RESTART_WFI)),
        [EvDoSynchronousInterrupt].
      reflexivity.
    + exists (Z.land (disable r) (Z.lnot RVD_RESTART_WFI)), [].
      rewrite app_nil_r. destruct r; reflexivity.
  - destruct (to_Bool (getPendingAndEnabledInterrupts r)); simpl.
    + exists (disable r), [EvDoSynchronousInterrupt]. destruct r; reflexivity.
    + exists (disable r), []. rewrite app_nil_r. destruct r; reflexivity.
Qed.

(* ------------------------------------------------------------------------- *)
(** ** Facts on trap entry, trap return and Debug mode *)

Section HartFacts.

Variable shl_undef : Z -> Z.
Variable riscvInhibitInstret : riscv -> bool.
Variable riscvInhibitCycle : riscv -> bool.
Variable riscvGetInstruction : riscv -> Z -> Z.
Variable riscvCountState : Type.
Variable riscvPreInhibit : riscv -> riscvCountState.
Variable riscvPostInhibit : riscv -> riscvCountState -> bool -> Z * Z.

Local Notation "'takeException'" :=
  (riscvTakeException shl_undef riscvInhibitInstret riscvCountState
     riscvPreInhibit riscvPostInhibit).
Local Notation "'interruptModeX'" := (getInterruptModeX shl_undef).
Local Notation "'exceptionModeX'" := (getExceptionModeX shl_undef).

(** Re-entering the Debug controller from Debug mode touches the stall flag,
    the halt reasons and the log, and nothing else. *)
Lemma enterDM_in_debug : forall r cause,
  inDebugMode r = true ->
  exists d evs,
    enterDM riscvCountState riscvPreInhibit riscvPostInhibit r cause
    = set_events (events r ++ evs) (set_disable d (set_DMStall true r))
    /\ forall cd m, ~ In (EvTrapNotifier cd m) evs.
Proof.
  intros r cause H. unfold enterDM. rewrite H. simpl.
  unfold updateDMStall. simpl.
  destruct (debug_mode (configInfo r)) eqn:Hm; simpl;
    unfold haltProcessor, emit; simpl; try rewrite Hm; simpl.
  - destruct (to_Bool (disable r)); simpl; try rewrite Hm; simpl.
    + exists (Z.lor (disable r) RVD_DEBUG), []. split.
      * rewrite app_nil_r. reflexivity.
      * intros cd m [].
    + exists (Z.lor (disable r) RVD_DEBUG), [EvHalt]. split.
      * reflexivity.
      * intros cd m [E|[]]. discriminate E.
  - exists (disable r), [EvInterrupt]. split.
    + reflexivity.
    + intros cd m [E|[]]. discriminate E.
  - destruct (to_Bool (disable r)); simpl; try rewrite Hm; simpl.
    + exists (Z.lor (disable r) RVD_DEBUG), []. split.
      * rewrite app_nil_r. reflexivity.
      * intros cd m [].
    + exists (Z.lor (disable r) RVD_DEBUG), [EvHalt]. split.
      * reflexivity.
      * intros cd m [E|[]]. discriminate E.
Qed.

Lemma pending_enabled_in_debug : forall r,
  inDebugMode r = true -> getPendingAndEnabledInterrupts r = 0.
Proof.
  intros r H. unfold getPendingAndEnabledInterrupts. rewrite H. reflexivity.
Qed.

(** C5. While the Debug mode flag is set, [riscvTakeException] performs no
    trap entry: it aborts the program buffer and re-enters the Debug
    controller with cause "none", which leaves the flag set and the current
    mode, the program counter, every CSR, the last exception, the
    instruction counter base, the exclusive-access tag and the access-fault
    detail as they were, and calls no trap notifier; and the
    pending-and-enabled interrupt mask is zero before and after. *)
Theorem debug_mode_suppresses_trap_delivery :
  forall r e tval,
    inDebugMode r = true ->
    let r' := takeException r e tval in
    r' = enterDM riscvCountState riscvPreInhibit riscvPostInhibit
           (emit EvAbortRepeat r) DMC_NONE /\
    inDebugMode r' = true /\
    mode r' = mode r /\ PC r' = PC r /\ csr r' = csr r /\
    exception r' = exception r /\
    baseInstructions r' = baseInstructions r /\
    exclusiveTag r' = exclusiveTag r /\
    AFErrorOut r' = AFErrorOut r /\
    (exists evs, events r' = events r ++ EvAbortRepeat :: evs /\
                 forall cd m, ~ In (EvTrapNotifier cd m) evs) /\
    getPendingAndEnabledInterrupts r = 0 /\
    getPendingAndEnabledInterrupts r' = 0.
Proof.
  intros r e tval H r'.
  assert (r' = enterDM riscvCountState riscvPreInhibit riscvPostInhibit
                 (emit EvAbortRepeat r) DMC_NONE) as Hr'.
  { unfold r', riscvTakeException. rewrite H. reflexivity. }
  split; [exact Hr'|].
  destruct (enterDM_in_debug (emit EvAbortRepeat r) DMC_NONE H)
    as (d & evs & Heq & Hno).
  rewrite Heq in Hr'. rewrite Hr'. simpl.
  repeat split; try reflexivity; try exact H.
  - exists evs. split; [|exact Hno].
    rewrite <- app_assoc. reflexivity.
  - apply pending_enabled_in_debug. exact H.
  - apply pending_enabled_in_debug. exact H.
Qed.

Lemma getInterruptModeX_frame : forall r r' c,
  mode r' = mode r -> csr r' = csr r -> XLEN r' = XLEN r ->
  interruptModeX r' c = interruptModeX r c.
Proof.
  intros r r' c Hm Hc Hx. unfold getInterruptModeX, getCurrentMode, RD_CSR,
    RD_CSR_FIELD. rewrite Hm, Hc, Hx. reflexivity.
Qed.

Lemma getExceptionModeX_frame : forall r r' c,
  mode r' = mode r -> csr r' = csr r -> XLEN r' = XLEN r ->
  exceptionModeX r' c = exceptionModeX r c.
Proof.
  intros r r' c Hm Hc Hx. unfold getExceptionModeX, getCurrentMode, RD_CSR,
    RD_CSR_FIELD. rewrite Hm, Hc, Hx. reflexivity.
Qed.

Local Notation "'modeXof'" := (trapModeX shl_undef).

Arguments keepBits : simpl never.
Arguments getModeX : simpl never.
Arguments to_Uns64 : simpl never.
Arguments to_Uns32 : simpl never.
Arguments GET_ECODE : simpl never.
Arguments IS_INTERRUPT : simpl never.
Arguments isExternalInterrupt : simpl never.
Arguments retiredCode : simpl never.
Arguments accessFaultCode : simpl never.

(** Normalisation of a hart given field by field: setters and projections
    are computed away. *)
Ltac hart_proj :=
  cbn [set_mode set_DM set_DMStall set_disable set_PC set_exception
       set_exclusiveTag set_baseCycles set_baseInstructions set_AFErrorOut
       set_vFirstFault set_csr set_events set_extInt
       configInfo currentArch privVersion XLEN verbose csrMask xIMode extInt
       extCBs AFErrorIn jumpBase dsOffset mode DM DMStall disable PC
       exception exclusiveTag baseCycles baseInstructions AFErrorOut
       vFirstFault csr events].

Ltac hart_cbv :=
  cbv [set_mode set_DM set_DMStall set_disable set_PC set_exception
       set_exclusiveTag set_baseCycles set_baseInstructions set_AFErrorOut
       set_vFirstFault set_csr set_events set_extInt
       configInfo currentArch privVersion XLEN verbose csrMask xIMode extInt
       extCBs AFErrorIn jumpBase dsOffset mode DM DMStall disable PC
       exception exclusiveTag baseCycles baseInstructions AFErrorOut
       vFirstFault csr events
       trapModeX getInterruptModeX getExceptionModeX getCurrentMode
       inDebugMode RD_CSR WR_CSR RD_CSR_FIELD WR_CSR_FIELD RD_CSR_MASK
       clearEA riscvSetMode TARGET_MODE_X getEPC getPC emit fieldBits].

(** The shape of a trap entry outside Debug mode: which parts of the hart
    change, and what the CSRs of the destination mode hold afterwards. *)
Lemma takeException_not_debug : forall r e tval,
  inDebugMode r = false ->
  let isInt := IS_INTERRUPT e in
  let modeX := modeXof r e in
  let x := trapCSRs modeX in
  let base := to_Uns64 (Z.shiftl (RD_CSR_FIELD r (xtvec_BASE x)) 2) in
  let imode := getIMode (xIMode r x) (RD_CSR_FIELD r (xtvec_MODE x)) in
  exists evs c,
    takeException r e tval
    = set_events (events r ++ evs)
        (set_csr c
        (set_PC (if (imode =? riscv_int_Direct) || negb isInt then base
                 else to_Uns64 (base + to_Uns32 (4 * GET_ECODE e)))
        (set_exception e
        (set_mode modeX
        (set_exclusiveTag RISCV_NO_TAG
        (set_AFErrorOut (if accessFaultCode e then AFErrorIn r
                         else riscv_AFault_None)
        (set_baseInstructions
           (if negb (retiredCode e) && negb (riscvInhibitInstret r)
            then to_Uns64 (baseInstructions r + 1)
            else baseInstructions r) r)))))))
    /\ c (mstatus_xPIE x) = keepBits 1 (RD_CSR_FIELD r (mstatus_xIE x))
    /\ c (mstatus_xIE x) = keepBits 1 0
    /\ c (xcause_ExceptionCode x) = keepBits (XLEN r - 1) (reportedCode r e)
    /\ c (xcause_Interrupt x) = keepBits 1 (of_Bool isInt)
    /\ c (xepc x)
       = keepBits (XLEN r) (Z.land (getEPC r) (RD_CSR_MASK r (xepc x)))
    /\ c (xtval x) = keepBits (XLEN r) tval
    /\ (x = xS -> c mstatus_SPP = keepBits 1 (mode_code (mode r)))
    /\ (x = xM -> c mstatus_MPP = keepBits 2 (mode_code (mode r))).
Proof.
  intros r e tval Hdm. cbv zeta.
  destruct r as [cfg ca pv xl vb cm xim ei cbs afi jb dso md dm dms dis pc
                   ex tag bc bi afo vff cs evs0].
  cbv [inDebugMode DM] in Hdm. subst dm.
  unfold riscvTakeException. cbv [inDebugMode DM]. cbv iota zeta.
  destruct (negb (retiredCode e) && negb (riscvInhibitInstret _));
    destruct (accessFaultCode e); hart_cbv;
    (match goal with
     | |- context [match ?m with RISCV_MODE_USER => _ | _ => _ end] =>
         destruct m
     end);
    cbv iota beta;
    (match goal with |- context [notifyTrapEntry ?R ?m] =>
       destruct (notifyTrapEntry_frame R m) as [evs ->] end);
    hart_cbv; exists evs; eexists; (split; [reflexivity|]);
    unfold reportedCode; hart_cbv; cbv [csrField_eqb xmode_eqb];
    repeat split; try reflexivity; try (intros Hx; discriminate Hx).
Qed.



Lemma external_interrupt_cases : forall e,
  isExternalInterrupt e = true ->
  e = riscv_E_UExternalInterrupt \/ e = riscv_E_SExternalInterrupt \/
  e = riscv_E_HExternalInterrupt \/ e = riscv_E_MExternalInterrupt.
Proof.
  intros e H. unfold isExternalInterrupt in H.
  apply andb_true_iff in H. destruct H as [H1 H2].
  apply Z.geb_le in H1. apply Z.leb_le in H2.
  change riscv_E_UExternalInterrupt with 72 in *.
  change riscv_E_SExternalInterrupt with 73.
  change riscv_E_HExternalInterrupt with 74.
  change riscv_E_MExternalInterrupt with 75 in *.
  lia.
Qed.

(** C10. For every external interrupt taken in vectored mode, the handler
    address is the base of the destination mode's trap vector plus four
    times the bare interrupt code, whatever the external-interrupt-ID
    latches hold; a latched ID that is not zero replaces the code written to
    the cause register of the destination mode, and nothing else. *)
Theorem vectored_handler_uses_bare_code :
  forall r e tval,
    inDebugMode r = false ->
    isExternalInterrupt e = true ->
    let x := trapCSRs (modeXof r e) in
    getIMode (xIMode r x) (RD_CSR_FIELD r (xtvec_MODE x))
      <> riscv_int_Direct ->
    let r' := takeException r e tval in
    let base := to_Uns64 (Z.shiftl (RD_CSR_FIELD r (xtvec_BASE x)) 2) in
    let id :=
      nth (Z.to_nat (e - riscv_E_ExternalInterrupt)) (extInt r) 0 in
    GET_ECODE e = e - riscv_E_Interrupt /\
    PC r' = to_Uns64 (base + 4 * GET_ECODE e) /\
    RD_CSR_FIELD r' (xcause_ExceptionCode x)
      = keepBits (XLEN r - 1) (if id =? 0 then GET_ECODE e else id) /\
    RD_CSR_FIELD r' (xcause_Interrupt x) = 1 /\
    (forall ids, PC (takeException (set_extInt ids r) e tval) = PC r').
Proof.
  intros r e tval Hdm Hext x Hvec r' base id.
  assert (IS_INTERRUPT e = true /\ GET_ECODE e = e - riscv_E_Interrupt /\
          to_Uns32 (4 * GET_ECODE e) = 4 * GET_ECODE e /\
          to_Uns32 (e - riscv_E_ExternalInterrupt)
            = e - riscv_E_ExternalInterrupt) as (Hint & Hcode & H4 & Hoff).
  { destruct (external_interrupt_cases e Hext) as [-> | [-> | [-> | ->]]];
      repeat split; reflexivity. }
  destruct (takeException_not_debug r e tval Hdm)
    as (evs & c & Heq & _ & _ & Hcause & Hintf & _).
  fold x in Heq, Hcause, Hintf.
  split; [exact Hcode|]. split; [|split; [|split]].
  - unfold r'. rewrite Heq. hart_proj. fold x. fold base.
    apply Z.eqb_neq in Hvec. rewrite Hvec, Hint, H4. reflexivity.
  - unfold r', RD_CSR_FIELD. rewrite Heq. hart_proj. rewrite Hcause.
    cbn [fieldBits]. rewrite keepBits_idem. unfold reportedCode. rewrite Hext, Hoff.
    hart_proj. fold id. unfold to_Bool. destruct (id =? 0); reflexivity.
  - unfold r', RD_CSR_FIELD. rewrite Heq. hart_proj. rewrite Hintf, Hint.
    reflexivity.
  - intros ids.
    assert (inDebugMode (set_extInt ids r) = false) as Hdm' by exact Hdm.
    destruct (takeException_not_debug (set_extInt ids r) e tval Hdm')
      as (evs' & c' & Heq' & _).
    unfold r'. rewrite Heq, Heq'. reflexivity.
Qed.


(* ------------------------------------------------------------------------- *)
(** ** Trap return *)

(** The common return actions change the mode, the program counter, the
    halt reasons and the log. *)
Lemma doERETCommon_shape : forall r retMode newMode epc,
  exists d evs,
    doERETCommon r retMode newMode epc
    = set_events (events r ++ evs)
        (set_disable d
        (set_PC (if to_Bool (Z.land (currentArch r) ISA_C) then epc
                 else Z.land epc (-4))
        (set_mode newMode r))).
Proof.
  intros r retMode newMode epc. unfold doERETCommon.
  match goal with |- context [riscvTestInterrupt ?R] =>
    destruct (riscvTestInterrupt_frame R) as (d & evs2 & ->) end.
  match goal with |- context [notifyERETDerived ?R ?m] =>
    destruct (notifyERETDerived_frame R m) as (evs1 & ->) end.
  exists d, (evs1 ++ evs2). unfold setPCxRET, riscvSetMode.
  destruct r. hart_proj. rewrite app_assoc.
  destruct (to_Bool (Z.land _ ISA_C)); reflexivity.
Qed.


(** Leaving Debug mode: the flag is cleared, the mode and the program
    counter come from the debug CSRs, and of the CSRs only [mstatus.MPRV]
    can change. *)
Lemma leaveDM_shape : forall r,
  exists d evs c bc bi,
    leaveDM riscvCountState riscvPreInhibit riscvPostInhibit r
    = set_events (events r ++ EvWriteNetPortDM false :: evs)
        (set_disable d
        (set_DMStall false
        (set_baseInstructions bi
        (set_baseCycles bc
        (set_PC (if to_Bool (Z.land (currentArch r) ISA_C)
                 then RD_CSR_FIELD r dpc
                 else Z.land (RD_CSR_FIELD r dpc) (-4))
        (set_mode (mode_of_code (RD_CSR_FIELD r dcsr_prv))
        (set_csr c
        (set_DM false r))))))))
    /\ forall f, f <> mstatus_MPRV -> c f = csr r f.
Proof.
  intros r.
  destruct r as [cfg ca pv xl vb cm xim ei cbs afi jb dso md dm dms dis pc
                   ex tag bc bi afo vff cs evs0].
  unfold leaveDM, setDM, clearMPRV. cbv zeta.
  match goal with
  | |- context [if ?c then WR_CSR_FIELD _ mstatus_MPRV 0 else _] =>
      destruct c
  end.
  all: match goal with |- context [doERETCommon ?R ?a ?b ?e] =>
         destruct (doERETCommon_shape R a b e) as (d & evs & ->) end.
  all: unfold doPostInhibit;
    match goal with |- context [riscvPostInhibit ?R ?s ?b] =>
      destruct (riscvPostInhibit R s b) as [bc' bi'] end.
  all: unfold updateDMStall, restartProcessor; hart_cbv.
  all: destruct (riscvDMMode_eqb (debug_mode cfg) RVDM_INTERRUPT).
  all: try match goal with
           | |- context [if negb (to_Bool ?z) then _ else _] =>
               destruct (negb (to_Bool z))
           end.
  all: hart_cbv.
  all: try change (csrField_eqb dpc mstatus_MPRV) with false; cbv iota.
  all: rewrite <- ?app_assoc; cbn [app].
  all: eexists; eexists; eexists; exists bc', bi'.
  all: (split; [reflexivity|]).
  all: intros f Hf; cbv beta; try reflexivity.
  all: rewrite (csrField_eqb_neq f mstatus_MPRV Hf); reflexivity.
Qed.



(** C8. [DRET] outside Debug mode takes an Illegal Instruction exception:
    it is the trap entry for that code, the last exception and the cause
    register of the destination mode record it, and the Debug mode flag stays
    clear.  [DRET] inside Debug mode leaves Debug mode: the flag is cleared,
    the mode and the program counter come from the debug CSRs, and no
    exception is raised: the last exception and every cause, epc and tval
    register are as before. *)
Theorem dret_outside_and_inside_debug :
  forall r,
    let r' := riscvDRET shl_undef riscvInhibitInstret riscvGetInstruction
                riscvCountState riscvPreInhibit riscvPostInhibit r in
    (inDebugMode r = false ->
     (exists tval,
        r' = takeException (if verbose r then emit EvMessageNDM r else r)
               riscv_E_IllegalInstruction tval) /\
     exception r' = riscv_E_IllegalInstruction /\
     inDebugMode r' = false /\
     mode r' = exceptionModeX r riscv_E_IllegalInstruction /\
     RD_CSR_FIELD r' (xcause_ExceptionCode (trapCSRs (mode r')))
       = keepBits (XLEN r - 1) riscv_E_IllegalInstruction /\
     RD_CSR_FIELD r' (xcause_Interrupt (trapCSRs (mode r'))) = 0) /\
    (inDebugMode r = true ->
     r' = leaveDM riscvCountState riscvPreInhibit riscvPostInhibit r /\
     inDebugMode r' = false /\
     exception r' = exception r /\
     mode r' = mode_of_code (RD_CSR_FIELD r dcsr_prv) /\
     forall x,
       RD_CSR_FIELD r' (xcause_ExceptionCode x)
         = RD_CSR_FIELD r (xcause_ExceptionCode x) /\
       RD_CSR_FIELD r' (xcause_Interrupt x)
         = RD_CSR_FIELD r (xcause_Interrupt x) /\
       RD_CSR_FIELD r' (xepc x) = RD_CSR_FIELD r (xepc x) /\
       RD_CSR_FIELD r' (xtval x) = RD_CSR_FIELD r (xtval x)).
Proof.
  intros r r'. split.
  - intros Hdm. unfold r', riscvDRET. rewrite Hdm. cbn [negb].
    unfold riscvIllegalInstruction.
    set (r0 := if verbose r then emit EvMessageNDM r else r).
    set (tval := if tval_ii_code (configInfo r0)
                 then riscvGetInstruction r0 (getPC r0) else 0).
    assert (inDebugMode r0 = false /\ mode r0 = mode r /\ csr r0 = csr r /\
            XLEN r0 = XLEN r) as (Hdm0 & Hm0 & Hc0 & Hx0).
    { unfold r0. destruct (verbose r); repeat split; assumption. }
    destruct (takeException_not_debug r0 riscv_E_IllegalInstruction tval
                Hdm0) as (evs & c & Heq & _ & _ & Hcode & Hint & _).
    split; [exists tval; reflexivity|].
    rewrite Heq. unfold RD_CSR_FIELD. hart_proj.
    change (trapModeX shl_undef r0 riscv_E_IllegalInstruction)
      with (exceptionModeX r0 riscv_E_IllegalInstruction) in *.
    rewrite Hcode, Hint, Hx0. cbn [fieldBits]. rewrite !keepBits_idem.
    repeat split.
    + exact Hdm0.
    + apply getExceptionModeX_frame; assumption.
  - intros Hdm.
    assert (r' = leaveDM riscvCountState riscvPreInhibit riscvPostInhibit r)
      as Hr'.
    { unfold r', riscvDRET. rewrite Hdm. reflexivity. }
    split; [exact Hr'|].
    destruct (leaveDM_shape r) as (d & evs & c & bc & bi & Heq & Hc).
    rewrite Hr', Heq. unfold RD_CSR_FIELD. hart_proj.
    repeat split; rewrite Hc by discriminate; reflexivity.
Qed.

(* ------------------------------------------------------------------------- *)
(** ** Trap entry followed by the matching return *)









(* ------------------------------------------------------------------------- *)
(** ** Memory exceptions and first-only-fault *)

(** C7, as the code has it. [riscvTakeMemoryException] first masks [vstart]
    to its writable bits.  When the first-only-fault flag is active and the
    masked start index is not zero, the exception is suppressed: nothing of
    the trap entry happens (mode, program counter, last exception,
    instruction counter base and every CSR but [vstart] and [vl] are as
    before), the effective vector length is set to the masked start index,
    the flag is cleared, and the polymorphic re-key operation is the one
    outgoing call.  When the flag is inactive or the masked start index is
    zero, the exception is reported and taken by [riscvTakeException], with
    the flag cleared. *)
Theorem first_fault_suppression :
  forall r e tval,
    let r0 := MASK_CSR r vstart in
    let v := RD_CSR r0 vstart in
    let r' := riscvTakeMemoryException shl_undef riscvInhibitInstret
                riscvCountState riscvPreInhibit riscvPostInhibit
                r e tval in
    v = keepBits (XLEN r)
          (Z.land (RD_CSR r vstart) (RD_CSR_MASK r vstart)) /\
    (vFirstFault r = true -> v <> 0 ->
     r' = riscvRefreshVectorPMKey
            (riscvSetVL (set_vFirstFault false r0) v) /\
     vFirstFault r' = false /\
     RD_CSR r' vl = v /\
     events r' = events r ++ [EvRefreshVectorPMKey] /\
     mode r' = mode r /\ PC r' = PC r /\ exception r' = exception r /\
     inDebugMode r' = inDebugMode r /\
     baseInstructions r' = baseInstructions r /\
     (forall f, f <> vstart -> f <> vl ->
                RD_CSR_FIELD r' f = RD_CSR_FIELD r f)) /\
    (vFirstFault r = false \/ v = 0 ->
     r' = takeException
            (reportMemoryException (set_vFirstFault false r0) e tval)
            e tval).
Proof.
  intros r e tval.
  destruct r as [cfg ca pv xl vb cm xim ei cbs afi jb dso md dm dms dis pc
                   ex tag bc bi afo vff cs evs0].
  cbv zeta. split; [|split].
  - unfold MASK_CSR. hart_cbv. rewrite csrField_eqb_refl.
    apply keepBits_idem.
  - intros Hff Hv. cbv [vFirstFault] in Hff. subst vff.
    unfold riscvTakeMemoryException, handleFF, riscvSetVL,
      riscvRefreshVectorPMKey, MASK_CSR in *.
    revert Hv. hart_cbv. rewrite ?csrField_eqb_refl. intros Hv.
    apply Z.eqb_neq in Hv. unfold to_Bool. rewrite Hv.
    cbv [negb]. cbv iota beta. hart_cbv.
    change (csrField_eqb vstart vl) with false.
    rewrite ?csrField_eqb_refl. cbv iota.
    rewrite !keepBits_idem.
    repeat split.
    intros f Hf1 Hf2.
    rewrite (csrField_eqb_neq f vl Hf2), (csrField_eqb_neq f vstart Hf1).
    reflexivity.
  - intros Hor.
    unfold riscvTakeMemoryException, handleFF, MASK_CSR in *.
    destruct vff.
    + destruct Hor as [Hff|Hv]; [discriminate Hff|].
      revert Hv. hart_cbv. rewrite ?csrField_eqb_refl. intros Hv.
      unfold to_Bool. rewrite Hv. reflexivity.
    + hart_cbv. reflexivity.
Qed.

(* ------------------------------------------------------------------------- *)
(** ** Interrupt arbitration *)

Lemma doInterruptLoop_fold : forall r p e sel,
  doInterruptLoop shl_undef r p e sel
  = fold_left (trySelect shl_undef r) (maskBits p e) sel.
Proof.
  intros r p. induction p as [p IH|p IH|]; intros e sel; simpl.
  - apply IH.
  - apply IH.
  - reflexivity.
Qed.

Lemma maskBits_nonempty : forall p e,
  exists k l, maskBits p e = k :: l.
Proof.
  induction p as [p IH|p IH|]; intros e; simpl.
  - eauto.
  - apply IH.
  - eauto.
Qed.

Lemma testbit_1 : forall n, Z.testbit 1 n = true <-> n = 0.
Proof.
  intros n. split.
  - intros H. destruct (Z.eq_dec n 0) as [|Hne]; [assumption|].
    destruct (Z.lt_ge_cases n 0) as [Hn|Hn].
    + rewrite Z.testbit_neg_r in H by exact Hn. discriminate H.
    + change 1 with (2 ^ 0) in H. rewrite Z.pow2_bits_false in H by lia.
      discriminate H.
  - intros ->. reflexivity.
Qed.

Lemma In_maskBits : forall p e k,
  In k (maskBits p e) <-> e <= k /\ Z.testbit (Zpos p) (k - e) = true.
Proof.
  induction p as [p IH|p IH|]; intros e k; simpl maskBits.
  - simpl In. rewrite IH, Pos2Z.inj_xI. split.
    + intros [<-|[Hle Hb]].
      * rewrite Z.sub_diag, Z.testbit_odd_0. split; [lia|reflexivity].
      * split; [lia|].
        replace (k - e) with (Z.succ (k - (e + 1))) by lia.
        rewrite Z.testbit_odd_succ by lia. exact Hb.
    + intros [Hle Hb]. destruct (Z.eq_dec e k) as [|Hne]; [left; assumption|].
      right. split; [lia|].
      replace (k - e) with (Z.succ (k - (e + 1))) in Hb by lia.
      rewrite Z.testbit_odd_succ in Hb by lia. exact Hb.
  - rewrite IH, Pos2Z.inj_xO. split.
    + intros [Hle Hb]. split; [lia|].
      replace (k - e) with (Z.succ (k - (e + 1))) by lia.
      rewrite Z.testbit_even_succ by lia. exact Hb.
    + intros [Hle Hb]. destruct (Z.eq_dec e k) as [<-|Hne].
      * rewrite Z.sub_diag, Z.testbit_even_0 in Hb. discriminate Hb.
      * split; [lia|].
        replace (k - e) with (Z.succ (k - (e + 1))) in Hb by lia.
        rewrite Z.testbit_even_succ in Hb by lia. exact Hb.
  - simpl In. rewrite testbit_1. split.
    + intros [<-|[]]. split; lia.
    + intros [Hle Hb]. left. lia.
Qed.

Lemma testbit_true_bound : forall a n,
  0 < a < 2 ^ 64 -> Z.testbit a n = true -> 0 <= n < 64.
Proof.
  intros a n Ha Hb. split.
  - destruct (Z.lt_ge_cases n 0) as [Hn|Hn]; [|lia].
    rewrite Z.testbit_neg_r in Hb by exact Hn. discriminate Hb.
  - destruct (Z.lt_ge_cases n 64) as [Hn|Hn]; [exact Hn|].
    rewrite Z.bits_above_log2 in Hb; [discriminate Hb|lia|].
    assert (Z.log2 a < 64) by (apply Z.log2_lt_pow2; lia). lia.
Qed.

Lemma bestAmong_iff : forall r (P Q : Z -> Prop) sel,
  (forall k, P k <-> Q k) ->
  bestAmong shl_undef r P sel -> bestAmong shl_undef r Q sel.
Proof.
  intros r P Q sel HPQ (H1 & H2 & H3). split; [|split].
  - apply HPQ. exact H1.
  - exact H2.
  - intros k Hk. apply H3. apply HPQ. exact Hk.
Qed.

Lemma trySelect_first : forall r sel k,
  ecode sel = NO_ECODE ->
  trySelect shl_undef r sel k
  = {| ecode := k; emode := interruptModeX r k |}.
Proof.
  intros r sel k H. unfold trySelect. rewrite H, Z.eqb_refl. reflexivity.
Qed.

Lemma bestAmong_single : forall r k,
  bestAmong shl_undef r (fun k' => k' = k)
    {| ecode := k; emode := interruptModeX r k |}.
Proof.
  intros r k. split; [reflexivity|]. split; [reflexivity|].
  intros k' ->. simpl. split; [lia|]. intros _. lia.
Qed.

(** One turn of the loop keeps the selection a best candidate. *)
Lemma trySelect_best : forall r P sel k,
  ecode sel <> NO_ECODE -> k <> NO_ECODE ->
  bestAmong shl_undef r P sel ->
  bestAmong shl_undef r (fun k' => k' = k \/ P k')
    (trySelect shl_undef r sel k) /\
  ecode (trySelect shl_undef r sel k) <> NO_ECODE.
Proof.
  intros r P sel k Hsel Hk (H1 & H2 & H3). unfold trySelect.
  apply Z.eqb_neq in Hsel. rewrite Hsel. cbn [ecode emode].
  destruct (mode_code (emode sel) <? mode_code (interruptModeX r k)) eqn:Hlt.
  - apply Z.ltb_lt in Hlt. split; [|exact Hk].
    split; [left; reflexivity|]. split; [reflexivity|].
    cbn [ecode emode]. intros k' [->|Hk'].
    + split; [lia|]. intros _. lia.
    + destruct (H3 k' Hk') as [Hle _]. split; [lia|].
      intros Heq. rewrite Heq in Hle. lia.
  - apply Z.ltb_ge in Hlt.
    destruct (mode_code (emode sel) >? mode_code (interruptModeX r k))
      eqn:Hgt.
    + apply Z.gtb_lt in Hgt. split; [|apply Z.eqb_neq; exact Hsel].
      split; [right; exact H1|]. split; [exact H2|].
      intros k' [->|Hk'].
      * split; [lia|]. intros Heq. rewrite Heq in Hgt. lia.
      * apply H3. exact Hk'.
    + assert (mode_code (emode sel) = mode_code (interruptModeX r k))
        as Heqm.
      { destruct (Z.gtb_spec (mode_code (emode sel))
                    (mode_code (interruptModeX r k))); [discriminate|lia]. }
      apply mode_code_inj in Heqm.
      destruct (getIntPri (ecode sel) <=? getIntPri k) eqn:Hpri.
      * apply Z.leb_le in Hpri. split; [|exact Hk].
        split; [left; reflexivity|]. split; [reflexivity|].
        cbn [ecode emode]. intros k' [->|Hk'].
        -- split; [lia|]. intros _. lia.
        -- destruct (H3 k' Hk') as [Hle Hp]. rewrite Heqm in Hle, Hp.
           split; [exact Hle|]. intros Heq. specialize (Hp Heq). lia.
      * apply Z.leb_gt in Hpri. split; [|apply Z.eqb_neq; exact Hsel].
        split; [right; exact H1|]. split; [exact H2|].
        intros k' [->|Hk'].
        -- rewrite Heqm. split; [lia|]. intros _. lia.
        -- apply H3. exact Hk'.
Qed.

Lemma fold_trySelect_best : forall r l P sel,
  (forall k, In k l -> k <> NO_ECODE) ->
  ecode sel <> NO_ECODE ->
  bestAmong shl_undef r P sel ->
  bestAmong shl_undef r (fun k => In k l \/ P k)
    (fold_left (trySelect shl_undef r) l sel).
Proof.
  intros r l. induction l as [|a l IH]; intros P sel Hl Hsel Hbest.
  - simpl. apply (bestAmong_iff r P); [|exact Hbest].
    intros k. split; [right; assumption|intros [[]|H]; exact H].
  - simpl fold_left.
    destruct (trySelect_best r P sel a Hsel (Hl a (or_introl eq_refl)) Hbest)
      as [Hb Hne].
    apply (bestAmong_iff r (fun k => In k l \/ (k = a \/ P k))).
    + intros k. simpl. split.
      * intros [H|[H|H]]; [left; right; exact H|left; left; symmetry; exact H
                          |right; exact H].
      * intros [[H|H]|H]; [right; left; symmetry; exact H|left; exact H
                          |right; right; exact H].
    + apply IH; [|exact Hne|exact Hb].
      intros k Hk. apply Hl. right. exact Hk.
Qed.

(** The interrupt [doInterrupt] selects from a mask that is not empty is a
    best candidate among the set bits of the mask. *)
Lemma selectInterrupt_best : forall r intMask,
  0 < intMask < 2 ^ 64 ->
  exists sel,
    selectInterrupt shl_undef r intMask = Some sel /\
    bestAmong shl_undef r (fun k => Z.testbit intMask k = true) sel.
Proof.
  clear riscvInhibitInstret riscvInhibitCycle riscvGetInstruction
    riscvPreInhibit riscvPostInhibit.
  intros r intMask Hm. destruct intMask as [|p|p]; try lia.
  unfold selectInterrupt. eexists. split; [reflexivity|].
  rewrite doInterruptLoop_fold.
  assert (forall k, In k (maskBits p 0) <-> Z.testbit (Zpos p) k = true)
    as Hin.
  { intros k. rewrite In_maskBits, Z.sub_0_r. split.
    - intros [_ H]. exact H.
    - intros H. split; [|exact H].
      apply (testbit_true_bound (Zpos p) k Hm H). }
  assert (forall k, In k (maskBits p 0) -> k <> NO_ECODE) as Hne.
  { intros k Hk. apply Hin in Hk.
    pose proof (testbit_true_bound (Zpos p) k Hm Hk) as Hb.
    change NO_ECODE with 4294967295. lia. }
  destruct (maskBits_nonempty p 0) as (k0 & l & Hkl).
  rewrite Hkl in Hin, Hne |- *. simpl fold_left.
  rewrite trySelect_first by reflexivity.
  apply (bestAmong_iff r (fun k => In k l \/ k = k0)).
  - intros k. rewrite <- Hin. simpl. split.
    + intros [H|H]; [right; exact H|left; symmetry; exact H].
    + intros [H|H]; [right; symmetry; exact H|left; exact H].
  - apply fold_trySelect_best.
    + intros k Hk. apply Hne. right. exact Hk.
    + cbn [ecode]. apply Hne. left. reflexivity.
    + apply (bestAmong_iff r (fun k' => k' = k0)); [tauto|].
      apply bestAmong_single.
Qed.

Lemma doInterrupt_selected : forall r intMask sel,
  selectInterrupt shl_undef r intMask = Some sel ->
  doInterrupt shl_undef riscvInhibitInstret riscvCountState riscvPreInhibit
    riscvPostInhibit r intMask
  = Some (takeException r (riscv_E_Interrupt + ecode sel) 0).
Proof. intros r intMask sel H. unfold doInterrupt. rewrite H. reflexivity. Qed.

(** C3. For every pending-and-enabled interrupt mask that is not empty and
    has two set bits [i] and [j] whose destination modes differ, [j] having
    the higher one, the arbitrator takes an interrupt that is a set bit of
    the mask, is not [i], and whose destination mode is at least that of
    [j]; when [i] and [j] are the only set bits it takes [j].  The fixed
    priorities of [i] and [j] play no part. *)
Theorem arbitration_prefers_higher_mode :
  forall r intMask i j,
    0 < intMask < 2 ^ 64 ->
    Z.testbit intMask i = true ->
    Z.testbit intMask j = true ->
    mode_lt (interruptModeX r i) (interruptModeX r j) ->
    exists sel,
      selectInterrupt shl_undef r intMask = Some sel /\
      doInterrupt shl_undef riscvInhibitInstret riscvCountState
        riscvPreInhibit riscvPostInhibit r intMask
      = Some (takeException r (riscv_E_Interrupt + ecode sel) 0) /\
      Z.testbit intMask (ecode sel) = true /\
      emode sel = interruptModeX r (ecode sel) /\
      ecode sel <> i /\
      mode_le (interruptModeX r j) (emode sel) /\
      ((forall k, Z.testbit intMask k = true -> k = i \/ k = j) ->
       ecode sel = j).
Proof.
  clear riscvInhibitCycle riscvGetInstruction.
  intros r intMask i j Hm Hi Hj Hlt.
  destruct (selectInterrupt_best r intMask Hm) as (sel & Hsel & Hin & He & Hb).
  exists sel. unfold mode_lt, mode_le in Hlt |- *.
  destruct (Hb j Hj) as [Hjle _].
  assert (ecode sel <> i) as Hni.
  { intros Heq. rewrite He, Heq in Hjle. lia. }
  repeat split; try assumption.
  - apply doInterrupt_selected. exact Hsel.
  - intros Honly. destruct (Honly (ecode sel) Hin) as [H|H];
      [contradiction|exact H].
Qed.

(** C4. The fixed priorities rise from the unranked local and custom
    interrupts through UTimer, USoftware, UExternal, STimer, SSoftware,
    SExternal, MTimer, MSoftware to MExternal.  For every
    pending-and-enabled interrupt mask that is not empty and has two set
    bits [i] and [j] with the same destination mode, [j] having the higher
    fixed priority, the arbitrator takes an interrupt that is a set bit of
    the mask and is not [i], of a fixed priority at least that of [j] when
    it goes to the same mode; when [i] and [j] are the only set bits it
    takes [j]. *)
Theorem arbitration_prefers_higher_rank :
  (getIntPri (INT_INDEX riscv_E_UTimerInterrupt) = 1 /\
   getIntPri (INT_INDEX riscv_E_USWInterrupt) = 2 /\
   getIntPri (INT_INDEX riscv_E_UExternalInterrupt) = 3 /\
   getIntPri (INT_INDEX riscv_E_STimerInterrupt) = 4 /\
   getIntPri (INT_INDEX riscv_E_SSWInterrupt) = 5 /\
   getIntPri (INT_INDEX riscv_E_SExternalInterrupt) = 6 /\
   getIntPri (INT_INDEX riscv_E_MTimerInterrupt) = 7 /\
   getIntPri (INT_INDEX riscv_E_MSWInterrupt) = 8 /\
   getIntPri (INT_INDEX riscv_E_MExternalInterrupt) = 9 /\
   forall n, INT_INDEX riscv_E_LocalInterrupt <= n -> getIntPri n = 0) /\
  forall r intMask i j,
    0 < intMask < 2 ^ 64 ->
    Z.testbit intMask i = true ->
    Z.testbit intMask j = true ->
    interruptModeX r i = interruptModeX r j ->
    getIntPri i < getIntPri j ->
    exists sel,
      selectInterrupt shl_undef r intMask = Some sel /\
      doInterrupt shl_undef riscvInhibitInstret riscvCountState
        riscvPreInhibit riscvPostInhibit r intMask
      = Some (takeException r (riscv_E_Interrupt + ecode sel) 0) /\
      Z.testbit intMask (ecode sel) = true /\
      ecode sel <> i /\
      (emode sel = interruptModeX r j ->
       getIntPri j <= getIntPri (ecode sel)) /\
      ((forall k, Z.testbit intMask k = true -> k = i \/ k = j) ->
       ecode sel = j).
Proof.
  clear riscvInhibitCycle riscvGetInstruction.
  split.
  - repeat split; try reflexivity.
    intros n Hn. unfold getIntPri.
    change (INT_INDEX riscv_E_LocalInterrupt) with 16 in Hn.
    change (INT_INDEX riscv_E_Last) with 12.
    destruct (Z.geb_spec n 12); [reflexivity|lia].
  - intros r intMask i j Hm Hi Hj Hmode Hpri.
    destruct (selectInterrupt_best r intMask Hm)
      as (sel & Hsel & Hin & He & Hb).
    exists sel.
    destruct (Hb j Hj) as [Hjle Hjp]. destruct (Hb i Hi) as [Hile Hip].
    assert (ecode sel <> i) as Hni.
    { intros Heq. rewrite He, Heq, <- Hmode in Hjp.
      specialize (Hjp eq_refl). lia. }
    repeat split; try assumption.
    + apply doInterrupt_selected. exact Hsel.
    + intros Heq. apply Hjp. symmetry. exact Heq.
    + intros Honly. destruct (Honly (ecode sel) Hin) as [H|H];
        [contradiction|exact H].
Qed.

End HartFacts.

(* ------------------------------------------------------------------------- *)
(** ** Instances on the sample harts *)

Ltac by_compute :=
  vm_compute;
  first [reflexivity | discriminate
        | let H := fresh in intros H; discriminate H].



(** Supervisor external (bit 9, to Supervisor mode, rank 6) against the
    first local interrupt (bit 16, to Machine mode, unranked). *)
Lemma arbitration_prefers_higher_mode_witness :
  0 < 2 ^ 9 + 2 ^ 16 < 2 ^ 64 /\
  mode_lt (getInterruptModeX sample_shl_undef sample_hart 9)
    (getInterruptModeX sample_shl_undef sample_hart 16) /\
  getIntPri 16 < getIntPri 9 /\
  exists sel,
    selectInterrupt sample_shl_undef sample_hart (2 ^ 9 + 2 ^ 16)
      = Some sel /\
    sample_doInterrupt sample_hart (2 ^ 9 + 2 ^ 16)
      = Some (sample_takeException sample_hart
                (riscv_E_Interrupt + ecode sel) 0) /\
    ecode sel <> 9 /\
    mode_le RISCV_MODE_MACHINE (emode sel).
Proof.
  assert (0 < 2 ^ 9 + 2 ^ 16 < 2 ^ 64) as Hm by lia.
  assert (mode_lt (getInterruptModeX sample_shl_undef sample_hart 9)
            (getInterruptModeX sample_shl_undef sample_hart 16)) as Hlt
    by by_compute.
  split; [exact Hm|]. split; [exact Hlt|]. split; [reflexivity|].
  destruct (arbitration_prefers_higher_mode sample_shl_undef sample_inhibit
              unit sample_preInhibit sample_postInhibit sample_hart
              (2 ^ 9 + 2 ^ 16) 9 16 Hm eq_refl eq_refl Hlt)
    as (sel & H1 & H2 & H3 & H4 & H5 & H6 & H7).
  exists sel.
  split; [exact H1|]. split; [exact H2|]. split; [exact H5|].
  vm_compute in H6. vm_compute. exact H6.
Defined.

(** Machine timer (bit 7, rank 7) against machine external (bit 11, rank
    9), both to Machine mode. *)
Lemma arbitration_prefers_higher_rank_witness :
  0 < 2 ^ 7 + 2 ^ 11 < 2 ^ 64 /\
  getInterruptModeX sample_shl_undef sample_hart 7
    = getInterruptModeX sample_shl_undef sample_hart 11 /\
  getIntPri 7 < getIntPri 11 /\
  exists sel,
    selectInterrupt sample_shl_undef sample_hart (2 ^ 7 + 2 ^ 11)
      = Some sel /\
    ecode sel <> 7 /\
    (emode sel = getInterruptModeX sample_shl_undef sample_hart 11 ->
     getIntPri 11 <= getIntPri (ecode sel)).
Proof.
  assert (0 < 2 ^ 7 + 2 ^ 11 < 2 ^ 64) as Hm by lia.
  assert (getInterruptModeX sample_shl_undef sample_hart 7
          = getInterruptModeX sample_shl_undef sample_hart 11) as Heq
    by by_compute.
  split; [exact Hm|]. split; [exact Heq|]. split; [reflexivity|].
  destruct (proj2 (arbitration_prefers_higher_rank sample_shl_undef
                     sample_inhibit unit sample_preInhibit
                     sample_postInhibit)
              sample_hart (2 ^ 7 + 2 ^ 11) 7 11 Hm eq_refl eq_refl Heq
              eq_refl)
    as (sel & H1 & H2 & H3 & H4 & H5 & H6).
  exists sel.
  split; [exact H1|]. split; [exact H4|]. exact H5.
Defined.

(** A load access fault raised in Debug mode. *)
Lemma debug_mode_suppresses_trap_delivery_witness :
  inDebugMode sample_debug_hart = true /\
  let r' :=
    sample_takeException sample_debug_hart riscv_E_LoadAccessFault 0 in
  inDebugMode r' = true /\
  mode r' = RISCV_MODE_SUPERVISOR /\
  PC r' = 0x80000100 /\
  exception r' = 0 /\
  getPendingAndEnabledInterrupts r' = 0.
Proof.
  split; [reflexivity|].
  destruct (debug_mode_suppresses_trap_delivery sample_shl_undef
              sample_inhibit unit sample_preInhibit sample_postInhibit
              sample_debug_hart riscv_E_LoadAccessFault 0 eq_refl)
    as (H1 & H2 & H3 & H4 & H5 & H6 & H7 & H8 & H9 & H10 & H11 & H12).
  vm_compute in H2, H3, H4, H6, H12. vm_compute.
  exact (conj H2 (conj H3 (conj H4 (conj H6 H12)))).
Defined.


(** A load access fault on element 3 of a fault-only-first load. *)
Lemma first_fault_suppression_witness :
  vFirstFault sample_ff_hart = true /\
  RD_CSR (MASK_CSR sample_ff_hart vstart) vstart <> 0 /\
  let r' :=
    sample_takeMemoryException sample_ff_hart riscv_E_LoadAccessFault
      0x5000 in
  vFirstFault r' = false /\
  RD_CSR r' vl = 3 /\
  events r' = [EvRefreshVectorPMKey] /\
  mode r' = RISCV_MODE_SUPERVISOR /\
  PC r' = 0x80000100 /\
  exception r' = 0.
Proof.
  assert (RD_CSR (MASK_CSR sample_ff_hart vstart) vstart <> 0) as Hv
    by by_compute.
  split; [reflexivity|]. split; [exact Hv|].
  destruct (proj1 (proj2 (first_fault_suppression sample_shl_undef
                            sample_inhibit unit sample_preInhibit
                            sample_postInhibit sample_ff_hart
                            riscv_E_LoadAccessFault 0x5000))
              eq_refl Hv)
    as (H1 & H2 & H3 & H4 & H5 & H6 & H7 & H8 & H9 & H10).
  vm_compute in H2, H3, H4, H5, H6, H7. vm_compute.
  exact (conj H2 (conj H3 (conj H4 (conj H5 (conj H6 H7))))).
Defined.

(** [DRET] outside Debug mode and inside it. *)
Lemma dret_outside_and_inside_debug_witness :
  inDebugMode sample_hart = false /\
  exception (sample_DRET sample_hart) = riscv_E_IllegalInstruction /\
  inDebugMode (sample_DRET sample_hart) = false /\
  mode (sample_DRET sample_hart) = RISCV_MODE_MACHINE /\
  inDebugMode sample_debug_hart = true /\
  inDebugMode (sample_DRET sample_debug_hart) = false /\
  exception (sample_DRET sample_debug_hart) = 0 /\
  mode (sample_DRET sample_debug_hart) = RISCV_MODE_SUPERVISOR.
Proof.
  destruct (proj1 (dret_outside_and_inside_debug sample_shl_undef
                     sample_inhibit sample_instruction unit
                     sample_preInhibit sample_postInhibit sample_hart)
              eq_refl)
    as (H1 & H2 & H3 & H4 & H5 & H6).
  destruct (proj2 (dret_outside_and_inside_debug sample_shl_undef
                     sample_inhibit sample_instruction unit
                     sample_preInhibit sample_postInhibit
                     sample_debug_hart) eq_refl)
    as (G1 & G2 & G3 & G4 & G5).
  vm_compute in H2, H3, H4, G2, G3, G4. vm_compute.
  exact (conj eq_refl (conj H2 (conj H3 (conj H4
          (conj eq_refl (conj G2 (conj G3 G4))))))).
Defined.


(** The machine external interrupt in vectored mode, with the ID 85 latched
    for Machine mode. *)
Lemma vectored_handler_uses_bare_code_witness :
  let r := set_extInt [0; 0; 0; 85] sample_hart in
  inDebugMode r = false /\
  isExternalInterrupt riscv_E_MExternalInterrupt = true /\
  let r' := sample_takeException r riscv_E_MExternalInterrupt 0 in
  PC r' = 0x8000 + 4 * 11 /\
  RD_CSR_FIELD r' (xcause_ExceptionCode xM) = 85 /\
  RD_CSR_FIELD r' (xcause_Interrupt xM) = 1 /\
  PC (sample_takeException sample_hart riscv_E_MExternalInterrupt 0)
    = PC r'.
Proof.
  assert (getIMode
            (xIMode (set_extInt [0; 0; 0; 85] sample_hart)
               (trapCSRs (trapModeX sample_shl_undef
                            (set_extInt [0; 0; 0; 85] sample_hart)
                            riscv_E_MExternalInterrupt)))
            (RD_CSR_FIELD (set_extInt [0; 0; 0; 85] sample_hart)
               (xtvec_MODE
                  (trapCSRs (trapModeX sample_shl_undef
                               (set_extInt [0; 0; 0; 85] sample_hart)
                               riscv_E_MExternalInterrupt))))
          <> riscv_int_Direct) as Hvec by by_compute.
  destruct (vectored_handler_uses_bare_code sample_shl_undef sample_inhibit
              unit sample_preInhibit sample_postInhibit
              (set_extInt [0; 0; 0; 85] sample_hart)
              riscv_E_MExternalInterrupt 0 eq_refl eq_refl Hvec)
    as (H1 & H2 & H3 & H4 & H5).
  pose proof (H5 [0; 0; 0; 0]) as H6.
  vm_compute in H2, H3, H4, H6. vm_compute.
  exact (conj eq_refl (conj eq_refl (conj H2 (conj H3 (conj H4 H6))))).
Defined.

(* ------------------------------------------------------------------------- *)
(** ** Where the code departs from the spec's words *)


(** On a hart whose [vstart] has no writable bit, a fault on element 3 of a
    fault-only-first load is not suppressed: with the flag active and
    [vstart = 3], the load access fault is taken to Machine mode and the
    vector length is not set to 3. *)
Lemma first_fault_not_suppressed_when_vstart_masked :
  vFirstFault sample_ff_vstart0_hart = true /\
  RD_CSR sample_ff_vstart0_hart vstart = 3 /\
  inDebugMode sample_ff_vstart0_hart = false /\
  mode sample_ff_vstart0_hart = RISCV_MODE_SUPERVISOR /\
  exception sample_ff_vstart0_hart = 0 /\
  let r' :=
    sample_takeMemoryException sample_ff_vstart0_hart
      riscv_E_LoadAccessFault 0x5000 in
  exception r' = riscv_E_LoadAccessFault /\
  mode r' = RISCV_MODE_MACHINE /\
  PC r' = 0x8000 /\
  RD_CSR_FIELD r' (xcause_ExceptionCode xM) = riscv_E_LoadAccessFault /\
  RD_CSR r' vl <> 3 /\
  events r' = [EvTrapNotifier 7 RISCV_MODE_MACHINE].
Proof.
  vm_compute. repeat split; try reflexivity.
  intros H. discriminate H.
Qed.
